(** * CoinGlass MCP: request pipeline and access gate

    A shallow embedding of [coinglass_mcp/config.py], [coinglass_mcp/client.py]
    and the helper functions of [coinglass_mcp/server.py], with the properties
    of the transport client ([CoinGlassClient.request]) and of the access gate
    ([check_plan], [check_interval], [check_params], [ok]).

    Python dictionaries are finite maps ([gmap]), Python sets are finite sets
    ([gset]); exceptions are values of the type [exn] and every function that
    can raise returns a [result]. The HTTP transport and the retry decorator
    are external libraries (httpx, tenacity): the transport is a scripted
    upstream, the decorator is the loop tenacity runs. *)

From Stdlib Require Import ZArith String.
From Stdlib Require Import Floats.SpecFloat.
From stdpp Require Import gmap strings list fin_maps sorting.

Open Scope string_scope.
Open Scope Z_scope.

(** ** Python values *)

(** The values that travel through the code: query parameters, keyword
    arguments, parsed JSON bodies and the envelopes the tools return. *)
#[warnings="-register-all"]
Inductive pyval : Type :=
  | PNone
  | PBool (b : bool)
  | PInt (n : Z)
  | PFloat (f : spec_float)
  | PStr (s : string)
  | PList (l : list pyval)
  | PDict (d : gmap string pyval).

(** [v is None] *)
Definition is_None (v : pyval) : bool :=
  match v with
  | PNone => true
  | _ => false
  end.

(** Python truth value testing: [None], [False], numeric zero and empty
    strings and containers are falsy. *)
Definition truthy (v : pyval) : bool :=
  match v with
  | PNone => false
  | PBool b => b
  | PInt n => negb (n =? 0)
  | PFloat (S754_zero _) => false
  | PFloat _ => true
  | PStr s => negb (String.eqb s "")
  | PList l => negb (Nat.eqb (length l) 0)
  | PDict d => negb (Nat.eqb (size d) 0)
  end.

(** [v == s] for a string literal [s]: only a [str] equals a [str]. *)
Definition py_eq_str (v : pyval) (s : string) : bool :=
  match v with
  | PStr t => String.eqb t s
  | _ => false
  end.

(** [d.get(k)] and [d.get(k, dflt)] *)
Definition dict_get (d : gmap string pyval) (k : string) : pyval :=
  default PNone (d !! k).

Definition dict_get_default (d : gmap string pyval) (k : string) (dflt : pyval) : pyval :=
  default dflt (d !! k).

(** [{k: v for k, v in d.items() if v is not None}] *)
Definition drop_none (d : gmap string pyval) : gmap string pyval :=
  filter (λ kv : string * pyval, is_None kv.2 = false) d.

(** [sep.join(parts)] *)
Fixpoint join (sep : string) (parts : list string) : string :=
  match parts with
  | [] => ""
  | [p] => p
  | p :: rest => p ++ sep ++ join sep rest
  end.

(** [sorted(s)] for a set of strings: ascending, by code point. *)
Definition str_le (s t : string) : Prop := String.leb s t = true.

#[global] Instance str_le_dec (s t : string) : Decision (str_le s t).
Proof. unfold str_le. apply _. Defined.

Definition sorted (s : gset string) : list string :=
  merge_sort str_le (elements s).

(** ** Exceptions and results *)

(** The exceptions that can leave the modelled functions. The three classes
    of [client.py]; the httpx ones [_is_retryable] tells apart
    ([TimeoutException] and [ConnectError] stand for the class and its
    subclasses, [HTTPStatusError] carries the status of its response);
    [TransportError] for any other exception [http.get] raises, by name;
    what [response.json()] and an attribute lookup can raise; the builtin
    [ValueError] of the gate; and tenacity's [RetryError], which carries the
    exception of the last attempt. *)
Inductive exn : Type :=
  | RateLimitError (msg : string)
  | PlanLimitError (msg : string)
  | APIError (msg : string)
  | HTTPStatusError (status_code : Z)
  | TimeoutException
  | ConnectError
  | TransportError (name : string)
  | JSONDecodeError
  | AttributeError (msg : string)
  | ValueError (msg : string)
  | RetryError (last_attempt : exn).

(** The class of an exception object ([type(exc)]), without its payload. *)
Inductive exn_class : Type :=
  | CRateLimitError
  | CPlanLimitError
  | CAPIError
  | CHTTPStatusError
  | CTimeoutException
  | CConnectError
  | CTransportError
  | CJSONDecodeError
  | CAttributeError
  | CValueError
  | CRetryError.

Definition class_of (e : exn) : exn_class :=
  match e with
  | RateLimitError _ => CRateLimitError
  | PlanLimitError _ => CPlanLimitError
  | APIError _ => CAPIError
  | HTTPStatusError _ => CHTTPStatusError
  | TimeoutException => CTimeoutException
  | ConnectError => CConnectError
  | TransportError _ => CTransportError
  | JSONDecodeError => CJSONDecodeError
  | AttributeError _ => CAttributeError
  | ValueError _ => CValueError
  | RetryError _ => CRetryError
  end.

Inductive result (A : Type) : Type :=
  | Return (a : A)
  | Raise (e : exn).

Arguments Return {A} a.
Arguments Raise {A} e.

Definition raises {A : Type} (r : result A) : Prop :=
  match r with
  | Return _ => False
  | Raise _ => True
  end.

(** ** config.py *)

Module Config.

Definition BASE_URL : string := "https://open-api-v4.coinglass.com".

(** [TIMEOUT = 30.0], in seconds. *)
Definition TIMEOUT : Z := 30.

Definition PLAN_HIERARCHY : gmap string Z :=
  {[ "hobbyist" := 0;
     "startup" := 1;
     "standard" := 2;
     "professional" := 3;
     "enterprise" := 4 ]}.

Definition PLAN_INTERVALS : gmap string (gset string) :=
  {[ "hobbyist" := {[ "h4"; "h8"; "h12"; "d1"; "w1" ]};
     "startup" := {[ "m30"; "h1"; "h4"; "h8"; "h12"; "d1"; "w1" ]};
     "standard" := {[ "m1"; "m5"; "m15"; "m30"; "h1"; "h4"; "h8"; "h12"; "d1"; "w1" ]};
     "professional" := {[ "m1"; "m5"; "m15"; "m30"; "h1"; "h4"; "h8"; "h12"; "d1"; "w1" ]};
     "enterprise" := {[ "m1"; "m5"; "m15"; "m30"; "h1"; "h4"; "h8"; "h12"; "d1"; "w1" ]} ]}.

Definition PLAN_FEATURES : gmap string (gset string) :=
  {[ "hobbyist" := ∅;
     "startup" := {[ "whale_alerts"; "whale_positions"; "all_positions" ]};
     "standard" := {[ "whale_alerts"; "whale_positions"; "all_positions"; "liq_orders" ]};
     "professional" := {[ "whale_alerts"; "whale_positions"; "all_positions"; "liq_orders";
                          "heatmaps"; "maps" ]};
     "enterprise" := {[ "whale_alerts"; "whale_positions"; "all_positions"; "liq_orders";
                        "heatmaps"; "maps" ]} ]}.

Definition ACTION_PLAN : gmap string string :=
  {[ "orders" := "standard";
     "pair_heatmap" := "professional";
     "coin_heatmap" := "professional";
     "pair_map" := "professional";
     "coin_map" := "professional";
     "alerts" := "startup";
     "positions" := "startup";
     "all_positions" := "startup" ]}.

Definition ACTION_PARAMS : gmap string (list string) :=
  {[ "pair" := ["exchange"; "pair"];
     "aggregated" := ["symbol"];
     "stablecoin" := ["symbol"];
     "coin_margin" := ["symbol"];
     "by_exchange" := ["symbol"];
     "exchange_chart" := ["symbol"];
     "oi_weighted" := ["symbol"];
     "vol_weighted" := ["symbol"];
     "global" := ["exchange"; "pair"];
     "top_accounts" := ["exchange"; "pair"];
     "top_positions" := ["exchange"; "pair"];
     "price_history" := ["exchange"; "pair"; "interval"] ]}.

End Config.

(** ** client.py *)

Module Client.

(** *** The transport and the world it runs in *)

(** The keyword arguments of one [http.get(...)] call. *)
Record Request : Type := {
  url : string;
  params : option (gmap string pyval);
  headers : gmap string string;
  timeout : Z
}.

(** What the code reads from an [httpx.Response]: the status code and the
    result of [response.json()], [None] when the body is not JSON. *)
Record Response : Type := {
  status_code : Z;
  json : option pyval
}.

(** The observable effects of a call of [request]: the HTTP calls issued, in
    order, and the delays slept between attempts, in seconds. *)
Record World : Type := {
  calls : list Request;
  sleeps : list Z
}.

Definition fresh : World := {| calls := []; sleeps := [] |}.

(** A computation that may raise and that acts on the world. *)
Definition M (A : Type) : Type := World → result A * World.

Definition ret {A : Type} (a : A) : M A := λ w, (Return a, w).

Definition raise {A : Type} (e : exn) : M A := λ w, (Raise e, w).

Definition bind {A B : Type} (m : M A) (k : A → M B) : M B :=
  λ w, match m w with
       | (Return a, w') => k a w'
       | (Raise e, w') => (Raise e, w')
       end.

Notation "'let!' x ':=' m 'in' k" := (bind m (λ x, k))
  (at level 10, x name, m at level 100, k at level 200).

(** The world after one more HTTP call, and after one more sleep. *)
Definition record_call (req : Request) (w : World) : World :=
  {| calls := calls w ++ [req]; sleeps := sleeps w |}.

Definition record_sleep (seconds : Z) (w : World) : World :=
  {| calls := calls w; sleeps := sleeps w ++ [seconds] |}.

Definition sleep (seconds : Z) : M unit :=
  λ w, (Return tt, record_sleep seconds w).

(** *** _is_retryable *)

(** [isinstance] against [httpx.TimeoutException], [httpx.ConnectError] and
    [httpx.HTTPStatusError]; every other exception is not retryable. *)
Definition _is_retryable (exc : exn) : bool :=
  match exc with
  | TimeoutException => true
  | ConnectError => true
  | HTTPStatusError status => (500 <=? status) && (status <? 600)
  | _ => false
  end.

(** *** The retry decorator (tenacity) *)

(** [wait_exponential(multiplier, min, max)]: the delay after attempt number
    [attempt_number] (counted from 1) is [multiplier * 2^(attempt_number-1)],
    clamped to [[min, max]]. *)
Definition wait_exponential (multiplier min max : Z) (attempt_number : nat) : Z :=
  Z.max (Z.max 0 min) (Z.min (multiplier * 2 ^ (Z.of_nat attempt_number - 1)) max).

(** The loop of [@retry(stop=stop_after_attempt(n), wait=..., retry=...)].
    An attempt that returns ends the loop. An attempt that raises [e] with
    [retry e] false re-raises [e] itself. Otherwise, when the attempt number
    has reached [n] (here: no attempt is left) the decorator stops, and since
    [reraise] keeps its default [False] it raises [RetryError] around the
    last attempt; if attempts are left it sleeps and calls again.
    [attempts_left] is [n - attempt_number]. *)
Fixpoint retrying {A : Type} (wait : nat → Z) (retry : exn → bool)
    (attempts_left attempt_number : nat) (f : M A) : M A :=
  λ w, match f w with
       | (Return a, w') => (Return a, w')
       | (Raise e, w') =>
           if retry e then
             match attempts_left with
             | O => (Raise (RetryError e), w')
             | S remaining =>
                 match sleep (wait attempt_number) w' with
                 | (_, w'') => retrying wait retry remaining (S attempt_number) f w''
                 end
             end
           else (Raise e, w')
       end.

Definition retry_decorator {A : Type} (stop_after_attempt : nat) (wait : nat → Z)
    (retry : exn → bool) (f : M A) : M A :=
  retrying wait retry (stop_after_attempt - 1) 1 f.

(** *** CoinGlassClient *)

(** The dataclass; its [http] field is the transport of the section below. *)
Record CoinGlassClient : Type := {
  api_key : string;
  base_url : string
}.

Definition type_name (v : pyval) : string :=
  match v with
  | PNone => "NoneType"
  | PBool _ => "bool"
  | PInt _ => "int"
  | PFloat _ => "float"
  | PStr _ => "str"
  | PList _ => "list"
  | PDict _ => "dict"
  end.

(** [response.raise_for_status()]: only a 2xx status passes. *)
Definition raise_for_status (response : Response) : M unit :=
  if (200 <=? status_code response) && (status_code response <=? 299)
  then ret tt
  else raise (HTTPStatusError (status_code response)).

(** [response.json()] *)
Definition response_json (response : Response) : M pyval :=
  match json response with
  | Some v => ret v
  | None => raise JSONDecodeError
  end.

(** [data.get(key, dflt)] on whatever [response.json()] returned: only a
    dict has the method. *)
Definition py_get (data : pyval) (key : string) (dflt : pyval) : M pyval :=
  match data with
  | PDict d => ret (dict_get_default d key dflt)
  | _ => raise (AttributeError ("'" ++ type_name data ++ "' object has no attribute 'get'"))
  end.

(** [params or {}] *)
Definition params_or_empty (params : option (gmap string pyval)) : gmap string pyval :=
  match params with
  | Some d => if truthy (PDict d) then d else ∅
  | None => ∅
  end.

(** [filtered_params if filtered_params else None] *)
Definition params_or_None (filtered_params : gmap string pyval) : option (gmap string pyval) :=
  if truthy (PDict filtered_params) then Some filtered_params else None.

Section Request.

(** The upstream behind [self.http]: what the [n]-th [http.get] call of the
    world (counted from 0) returns or raises. *)
Variable upstream : nat → Request → result Response.

(** Python's [str()], as applied by an f-string to an interpolated value. *)
Variable py_str : pyval → string.

Definition http_get (req : Request) : M Response :=
  λ w, (upstream (length (calls w)) req, record_call req w).

(** The [http.get] call [request] issues for an endpoint and a parameter bag. *)
Definition build_request (self : CoinGlassClient) (endpoint : string)
    (params : option (gmap string pyval)) : Request :=
  let filtered_params := drop_none (params_or_empty params) in
  {| url := base_url self ++ endpoint;
     params := params_or_None filtered_params;
     headers := {[ "CG-API-KEY" := api_key self ]};
     timeout := Config.TIMEOUT |}.

(** The body of [request], one attempt. *)
Definition request_attempt (self : CoinGlassClient) (endpoint : string)
    (params : option (gmap string pyval)) : M pyval :=
  let! response := http_get (build_request self endpoint params) in
  if status_code response =? 429 then
    raise (RateLimitError "Rate limit exceeded. Please wait before making more requests.")
  else if status_code response =? 403 then
    raise (PlanLimitError "This feature requires a higher plan. Check your CoinGlass subscription.")
  else if status_code response =? 401 then
    raise (APIError "Invalid API key. Please check your COINGLASS_API_KEY.")
  else
    let! _ := raise_for_status response in
    let! data := response_json response in
    let! code := py_get data "code" PNone in
    if negb (py_eq_str code "0") then
      let! msg := py_get data "msg" (PStr "Unknown error") in
      raise (APIError ("API error: " ++ py_str msg))
    else
      py_get data "data" PNone.

(** [CoinGlassClient.request], with its decorator. *)
Definition request (self : CoinGlassClient) (endpoint : string)
    (params : option (gmap string pyval)) : M pyval :=
  retry_decorator 3 (wait_exponential 1 1 10) _is_retryable
    (request_attempt self endpoint params).

End Request.

End Client.

(** ** server.py: the helper functions *)

Module Server.

(** What a tool reads from its [ctx]: the lifespan context, a dict with the
    keys ["client"] and ["plan"]. A tool called without a context has
    [ctx = None]. *)
Record Context : Type := {
  client : Client.CoinGlassClient;
  plan : string
}.

Definition get_plan (ctx : option Context) : result string :=
  match ctx with
  | None => Raise (ValueError "Context is required - tool must be called via MCP")
  | Some c => Return (plan c)
  end.

(** [PLAN_HIERARCHY.get(p, 0)] *)
Definition rank (p : string) : Z :=
  default 0 (Config.PLAN_HIERARCHY !! p).

(** [PLAN_INTERVALS.get(plan, set())] *)
Definition allowed_intervals (p : string) : gset string :=
  default ∅ (Config.PLAN_INTERVALS !! p).

(** [ACTION_PARAMS.get(action, [])] *)
Definition required_params (action : string) : list string :=
  default [] (Config.ACTION_PARAMS !! action).

Definition check_plan (ctx : option Context) (action : string) : result unit :=
  match get_plan ctx with
  | Raise e => Raise e
  | Return plan =>
      match Config.ACTION_PLAN !! action with
      | Some required =>
          if negb (String.eqb required "") && (rank plan <? rank required) then
            Raise (ValueError
              ("Action '" ++ action ++ "' requires " ++ required
               ++ " plan (current: " ++ plan ++ "). "
               ++ "Upgrade at https://www.coinglass.com/pricing"))
          else Return tt
      | None => Return tt
      end
  end.

Definition check_interval (ctx : option Context) (interval : string) : result unit :=
  match get_plan ctx with
  | Raise e => Raise e
  | Return plan =>
      let allowed := allowed_intervals plan in
      if bool_decide (interval ∉ allowed) then
        Raise (ValueError
          ("Interval '" ++ interval ++ "' not available for " ++ plan ++ " plan. "
           ++ "Available intervals: " ++ join ", " (sorted allowed)))
      else Return tt
  end.

(** [[p for p in required if not kwargs.get(p)]] *)
Definition missing_params (required : list string) (kwargs : gmap string pyval) : list string :=
  List.filter (λ p, negb (truthy (dict_get kwargs p))) required.

Definition check_params (action : string) (kwargs : gmap string pyval) : result unit :=
  let required := required_params action in
  let missing := missing_params required kwargs in
  match missing with
  | [] => Return tt
  | _ :: _ =>
      Raise (ValueError
        ("Action '" ++ action ++ "' requires parameters: " ++ join ", " missing))
  end.

Definition ok (action : string) (data : pyval) (meta : gmap string pyval) : pyval :=
  PDict {[ "success" := PBool true;
           "action" := PStr action;
           "data" := data;
           "metadata" := PDict (drop_none meta) ]}.

End Server.

(** ** tests/conftest.py: the fixtures *)

Module Fixtures.

(** [CoinGlassClient(http=mock_http, api_key="test-api-key")] *)
Definition client : Client.CoinGlassClient :=
  {| Client.api_key := "test-api-key"; Client.base_url := Config.BASE_URL |}.

(** [MockContext(plan)] *)
Definition mock_context (plan : string) : Server.Context :=
  {| Server.client := client; Server.plan := plan |}.

(** [mock_response(data, code, msg)]: status 200 and the envelope as body. *)
Definition mock_response (data : pyval) (code msg : string) : Client.Response :=
  {| Client.status_code := 200;
     Client.json := Some (PDict {[ "code" := PStr code; "msg" := PStr msg; "data" := data ]}) |}.

(** A mocked [http.get] that gives the same response to every call. *)
Definition always (response : Client.Response) : nat → Client.Request → result Client.Response :=
  λ _ _, Return response.

(** A mocked [http.get] that raises the same exception at every call. *)
Definition always_raises (e : exn) : nat → Client.Request → result Client.Response :=
  λ _ _, Raise e.

(** A mocked [http.get] whose first call raises and whose later calls give
    the same response. *)
Definition fails_once (e : exn) (response : Client.Response)
    : nat → Client.Request → result Client.Response :=
  λ n _, match n with
         | O => Raise e
         | S _ => Return response
         end.

(** A stand-in for [str()] in the examples: exact on [str], [None] and
    [bool]; the other values, which no example formats, give the empty
    string. *)
Definition str (v : pyval) : string :=
  match v with
  | PStr s => s
  | PNone => "None"
  | PBool true => "True"
  | PBool false => "False"
  | _ => ""
  end.

(** The parameters and the payload of the end-to-end scenario:
    [{"symbol": "BTC", "exchange": None}] and [[{"symbol": "BTC"}]]. *)
Definition btc_params : gmap string pyval :=
  {[ "symbol" := PStr "BTC"; "exchange" := PNone ]}.

Definition btc_rows : pyval := PList [PDict {[ "symbol" := PStr "BTC" ]}].

(** [str.lower] on ASCII text, for the examples: the letters A to Z are
    shifted to a to z, every other character is kept. *)
Definition ascii_lower (c : Ascii.ascii) : Ascii.ascii :=
  let n := Ascii.nat_of_ascii c in
  if (65 <=? n)%nat && (n <=? 90)%nat then Ascii.ascii_of_nat (n + 32) else c.

Fixpoint lower (s : string) : string :=
  match s with
  | EmptyString => EmptyString
  | String c rest => String (ascii_lower c) (lower rest)
  end.

End Fixtures.

(** ** server.py: the tools *)

(** The tool functions, as the tests call them: the body of the function,
    without the argument validation of the registration layer. A parameter
    annotated with a [Literal] type is a value of an enumeration; [str | None]
    is an [option string]. *)
Module Tools.
Import Client Server.

Definition get_client (ctx : option Context) : result CoinGlassClient :=
  match ctx with
  | None => Raise (ValueError "Context is required - tool must be called via MCP")
  | Some c => Return (client c)
  end.

(** A call of a function that does not touch the world. *)
Definition call {A : Type} (r : result A) : M A := λ w, (r, w).

(** An optional string argument as a Python value. *)
Definition opt_str (o : option string) : pyval :=
  match o with
  | Some s => PStr s
  | None => PNone
  end.

(** [a or b] *)
Definition py_or (a b : pyval) : pyval := if truthy a then a else b.

(** [len(data) if isinstance(data, list) else None] *)
Definition total_of (data : pyval) : pyval :=
  match data with
  | PList l => PInt (Z.of_nat (length l))
  | _ => PNone
  end.

Inductive Side : Type := long | short.

Definition Side_str (s : Side) : string :=
  match s with
  | long => "long"
  | short => "short"
  end.

Inductive ActionWhale : Type := Whale_alerts | Whale_positions | Whale_all_positions.

Definition ActionWhale_str (a : ActionWhale) : string :=
  match a with
  | Whale_alerts => "alerts"
  | Whale_positions => "positions"
  | Whale_all_positions => "all_positions"
  end.

Inductive ActionOIHistory : Type := OI_pair | OI_aggregated | OI_stablecoin | OI_coin_margin.

Definition ActionOIHistory_str (a : ActionOIHistory) : string :=
  match a with
  | OI_pair => "pair"
  | OI_aggregated => "aggregated"
  | OI_stablecoin => "stablecoin"
  | OI_coin_margin => "coin_margin"
  end.

Inductive ActionMarketData : Type := MD_coins_summary | MD_pairs_summary | MD_price_changes.

Definition ActionMarketData_str (a : ActionMarketData) : string :=
  match a with
  | MD_coins_summary => "coins_summary"
  | MD_pairs_summary => "pairs_summary"
  | MD_price_changes => "price_changes"
  end.

Inductive ActionSpot : Type :=
  Spot_coins | Spot_pairs | Spot_coins_markets | Spot_pairs_markets | Spot_price_history.

Definition ActionSpot_str (a : ActionSpot) : string :=
  match a with
  | Spot_coins => "coins"
  | Spot_pairs => "pairs"
  | Spot_coins_markets => "coins_markets"
  | Spot_pairs_markets => "pairs_markets"
  | Spot_price_history => "price_history"
  end.

Inductive ActionConfig : Type :=
  Config_exchanges | Config_intervals | Config_rate_limits | Config_plan_features.

Definition ActionConfig_str (a : ActionConfig) : string :=
  match a with
  | Config_exchanges => "exchanges"
  | Config_intervals => "intervals"
  | Config_rate_limits => "rate_limits"
  | Config_plan_features => "plan_features"
  end.

Section WithUpstream.

Variable upstream : nat → Request → result Response.
Variable py_str : pyval → string.

Definition coinglass_liq_orders (symbol : option string) (side : option Side)
    (limit : Z) (ctx : option Context) : M pyval :=
  let! _ := call (check_plan ctx "orders") in
  let! client := call (get_client ctx) in
  let params : gmap string pyval :=
    {[ "symbol" := opt_str symbol;
       "side" := opt_str (Side_str <$> side);
       "limit" := PInt limit ]} in
  let! data := request upstream py_str client "/api/futures/liquidation/order" (Some params) in
  ret (ok "orders" data
         {[ "symbol" := opt_str symbol; "side" := opt_str (Side_str <$> side) ]}).

Definition whale_endpoints (action : ActionWhale) : string :=
  match action with
  | Whale_alerts => "/api/hyperliquid/whale-alert"
  | Whale_positions => "/api/hyperliquid/whale-position"
  | Whale_all_positions => "/api/hyperliquid/position"
  end.

Definition coinglass_whale_positions (action : ActionWhale) (symbol user : option string)
    (page : Z) (ctx : option Context) : M pyval :=
  let! _ := call (check_plan ctx (ActionWhale_str action)) in
  let! client := call (get_client ctx) in
  let params : gmap string pyval :=
    {[ "symbol" := opt_str symbol; "user" := opt_str user; "page" := PInt page ]} in
  let! data := request upstream py_str client (whale_endpoints action) (Some params) in
  ret (ok (ActionWhale_str action) data
         {[ "symbol" := opt_str symbol; "page" := PInt page ]}).

Definition coinglass_price_history (exchange pair interval : string) (limit : Z)
    (ctx : option Context) : M pyval :=
  let! _ := call (check_interval ctx interval) in
  let! client := call (get_client ctx) in
  let! data := request upstream py_str client "/api/price/ohlc-history"
                 (Some {[ "exchange" := PStr exchange;
                          "symbol" := PStr pair;
                          "interval" := PStr interval;
                          "limit" := PInt limit ]}) in
  ret (ok "price_history" data
         {[ "exchange" := PStr exchange;
            "pair" := PStr pair;
            "interval" := PStr interval;
            "total" := total_of data ]}).

Definition oi_history_endpoints (action : ActionOIHistory) : string :=
  match action with
  | OI_pair => "/api/futures/openInterest/ohlc-history"
  | OI_aggregated => "/api/futures/openInterest/ohlc-aggregated-history"
  | OI_stablecoin => "/api/futures/openInterest/ohlc-aggregated-stablecoin"
  | OI_coin_margin => "/api/futures/openInterest/ohlc-aggregated-coin-margin-history"
  end.

Definition coinglass_oi_history (action : ActionOIHistory)
    (symbol exchange pair : option string) (interval : string) (limit : Z)
    (ctx : option Context) : M pyval :=
  let! _ := call (check_interval ctx interval) in
  let! _ := call (check_params (ActionOIHistory_str action)
                    {[ "symbol" := opt_str symbol;
                       "exchange" := opt_str exchange;
                       "pair" := opt_str pair ]}) in
  let! client := call (get_client ctx) in
  let params : gmap string pyval :=
    match action with
    | OI_pair =>
        {[ "exchange" := opt_str exchange;
           "symbol" := opt_str pair;
           "interval" := PStr interval;
           "limit" := PInt limit ]}
    | _ =>
        {[ "symbol" := opt_str symbol; "interval" := PStr interval; "limit" := PInt limit ]}
    end in
  let! data := request upstream py_str client (oi_history_endpoints action) (Some params) in
  ret (ok (ActionOIHistory_str action) data
         {[ "symbol" := py_or (opt_str symbol) (opt_str pair);
            "exchange" := opt_str exchange;
            "interval" := PStr interval;
            "total" := total_of data ]}).

Definition market_data_endpoints (action : ActionMarketData) : string :=
  match action with
  | MD_coins_summary => "/api/futures/coins-markets"
  | MD_pairs_summary => "/api/futures/pairs-markets"
  | MD_price_changes => "/futures/price-change-list"
  end.

Definition coinglass_market_data (action : ActionMarketData) (symbol : option string)
    (ctx : option Context) : M pyval :=
  let! client := call (get_client ctx) in
  if String.eqb (ActionMarketData_str action) "coins_summary"
     && negb (truthy (opt_str symbol))
  then raise (ValueError
         "Action 'coins_summary' requires symbol parameter (e.g., symbol='BTC')")
  else
    let params : option (gmap string pyval) :=
      if truthy (opt_str symbol) then Some {[ "symbol" := opt_str symbol ]} else None in
    let! data := request upstream py_str client (market_data_endpoints action) params in
    ret (ok (ActionMarketData_str action) data
           {[ "symbol" := opt_str symbol; "total" := total_of data ]}).

Definition spot_endpoints (action : ActionSpot) : string :=
  match action with
  | Spot_coins => "/api/spot/supported-coins"
  | Spot_pairs => "/api/spot/supported-exchange-pairs"
  | Spot_coins_markets => "/api/spot/coins-markets"
  | Spot_pairs_markets => "/api/spot/pairs-markets"
  | Spot_price_history => "/api/price/ohlc-history"
  end.

Definition coinglass_spot (action : ActionSpot)
    (symbol exchange pair interval : option string) (limit : Z)
    (ctx : option Context) : M pyval :=
  let! client := call (get_client ctx) in
  let! params :=
    (if String.eqb (ActionSpot_str action) "price_history" then
       let! _ := (match interval with
                  | Some i => if truthy (PStr i) then call (check_interval ctx i) else ret tt
                  | None => ret tt
                  end) in
       ret ({[ "exchange" := opt_str exchange;
               "symbol" := opt_str pair;
               "interval" := opt_str interval;
               "limit" := PInt limit ]} : gmap string pyval)
     else ret (∅ : gmap string pyval)) in
  let! data := request upstream py_str client (spot_endpoints action) (Some params) in
  ret (ok (ActionSpot_str action) data
         {[ "symbol" := opt_str symbol; "exchange" := opt_str exchange ]}).

(** The last two steps of every tool, for the statements below: the request,
    and the envelope around the data when the request returns; an exception
    of the request is passed on. *)
Definition request_then_ok (c : Context) (endpoint : string)
    (params : option (gmap string pyval)) (action : string)
    (meta : pyval → gmap string pyval) (w : World) : result pyval * World :=
  match request upstream py_str (client c) endpoint params w with
  | (Return data, w') => (Return (ok action data (meta data)), w')
  | (Raise e, w') => (Raise e, w')
  end.

End WithUpstream.

(** [limits.get(plan, 30)] of the [rate_limits] action. *)
Definition rate_limits : gmap string Z :=
  {[ "hobbyist" := 30;
     "startup" := 80;
     "standard" := 300;
     "professional" := 600;
     "enterprise" := 1200 ]}.

Definition py_strs (l : list string) : pyval := PList (PStr <$> l).

Section ConfigTool.

(** [list(s)] for a set [s]: its elements in the iteration order of the set,
    which the language leaves open. *)
Variable list_of_set : gset string → list string.

(** [sorted(list(s))] is [sorted s]: the ascending list of the elements does
    not depend on the order they are taken in. *)
Definition coinglass_config (action : ActionConfig) (ctx : option Context) : result pyval :=
  match get_plan ctx with
  | Raise e => Raise e
  | Return plan =>
      let data : gmap string pyval :=
        match action with
        | Config_exchanges =>
            {[ "futures" := py_strs ["Binance"; "OKX"; "Bybit"; "dYdX"; "Bitget";
                                     "Huobi"; "Gate"; "CoinEx"; "Kraken"; "BingX"];
               "spot" := py_strs ["Binance"; "OKX"; "Coinbase"; "Bybit"; "Kraken";
                                  "Huobi"; "Gate"; "Bitfinex"; "KuCoin"];
               "options" := py_strs ["Deribit"; "OKX"; "Binance"; "Bybit"] ]}
        | Config_intervals =>
            {[ "all" := py_strs (sorted (allowed_intervals "enterprise"));
               "your_plan" := py_strs (sorted (allowed_intervals plan));
               "plan" := PStr plan ]}
        | Config_rate_limits =>
            {[ "plan" := PStr plan;
               "requests_per_minute" := PInt (default 30 (rate_limits !! plan));
               "note" := PStr "Check response headers for current usage" ]}
        | Config_plan_features =>
            {[ "plan" := PStr plan;
               "features" := py_strs (list_of_set (default ∅ (Config.PLAN_FEATURES !! plan)));
               "intervals" := py_strs (list_of_set (allowed_intervals plan)) ]}
        end in
      Return (ok (ActionConfig_str action) (PDict data) {[ "plan" := PStr plan ]})
  end.

End ConfigTool.

(** *** coinglass_search *)

(** One entry of [tools_info]; the dict is kept as the list of its items, in
    the order they are written, which is the order the loop visits them. *)
Record ToolInfo : Type := {
  tool : string;
  actions : list string;
  keywords : list string
}.

Definition tools_info : list ToolInfo :=
  [ {| tool := "coinglass_market_info";
       actions := ["coins"; "pairs"; "exchanges"];
       keywords := ["market"; "coins"; "exchanges"; "pairs"; "supported"] |};
    {| tool := "coinglass_market_data";
       actions := ["coins_summary"; "pairs_summary"; "price_changes"];
       keywords := ["market"; "price"; "summary"; "overview"] |};
    {| tool := "coinglass_price_history";
       actions := [];
       keywords := ["price"; "ohlc"; "history"; "candles"; "chart"] |};
    {| tool := "coinglass_oi_history";
       actions := ["pair"; "aggregated"; "stablecoin"; "coin_margin"];
       keywords := ["open interest"; "oi"; "positions"; "history"] |};
    {| tool := "coinglass_oi_distribution";
       actions := ["by_exchange"; "exchange_chart"];
       keywords := ["open interest"; "oi"; "distribution"; "exchange"] |};
    {| tool := "coinglass_funding_history";
       actions := ["pair"; "oi_weighted"; "vol_weighted"];
       keywords := ["funding"; "rate"; "history"] |};
    {| tool := "coinglass_funding_current";
       actions := ["rates"; "accumulated"; "arbitrage"];
       keywords := ["funding"; "rate"; "arbitrage"; "current"] |};
    {| tool := "coinglass_long_short";
       actions := ["global"; "top_accounts"; "top_positions"; "taker_ratio"];
       keywords := ["long"; "short"; "ratio"; "sentiment"] |};
    {| tool := "coinglass_liq_history";
       actions := ["pair"; "aggregated"; "by_coin"; "by_exchange"];
       keywords := ["liquidation"; "liq"; "history"] |};
    {| tool := "coinglass_liq_orders";
       actions := [];
       keywords := ["liquidation"; "orders"; "real-time"; "stream"] |};
    {| tool := "coinglass_liq_heatmap";
       actions := ["pair_heatmap"; "coin_heatmap"; "pair_map"; "coin_map"];
       keywords := ["liquidation"; "heatmap"; "map"; "leverage"] |};
    {| tool := "coinglass_ob_history";
       actions := ["pair_depth"; "coin_depth"; "heatmap"];
       keywords := ["orderbook"; "depth"; "bid"; "ask"] |};
    {| tool := "coinglass_ob_large_orders";
       actions := ["current"; "history"];
       keywords := ["orderbook"; "whale"; "large"; "orders"; "walls"] |};
    {| tool := "coinglass_whale_positions";
       actions := ["alerts"; "positions"; "all_positions"];
       keywords := ["whale"; "positions"; "hyperliquid"; "large traders"] |};
    {| tool := "coinglass_bitfinex_longs_shorts";
       actions := [];
       keywords := ["bitfinex"; "margin"; "longs"; "shorts"] |};
    {| tool := "coinglass_taker";
       actions := ["pair_history"; "coin_history"; "by_exchange"];
       keywords := ["taker"; "buy"; "sell"; "volume"; "aggressor"] |};
    {| tool := "coinglass_spot";
       actions := ["coins"; "pairs"; "coins_markets"; "pairs_markets"; "price_history"];
       keywords := ["spot"; "market"] |};
    {| tool := "coinglass_options";
       actions := ["max_pain"; "info"; "oi_history"; "volume_history"];
       keywords := ["options"; "max pain"; "calls"; "puts"; "deribit"] |};
    {| tool := "coinglass_onchain";
       actions := ["assets"; "balance_list"; "balance_chart"; "transfers"];
       keywords := ["onchain"; "on-chain"; "balance"; "exchange"; "flow"; "transfer"] |};
    {| tool := "coinglass_etf";
       actions := ["list"; "flows"; "net_assets"; "premium"; "detail"; "price"];
       keywords := ["etf"; "bitcoin"; "ethereum"; "flows"; "institutional"] |};
    {| tool := "coinglass_grayscale";
       actions := ["holdings"; "premium"];
       keywords := ["grayscale"; "gbtc"; "ethe"] |};
    {| tool := "coinglass_indicators";
       actions := ["rsi"; "basis"; "coinbase_premium"; "fear_greed"; "ahr999";
                   "puell"; "stock_flow"; "pi_cycle"; "rainbow"; "bubble";
                   "ma_2year"; "ma_200week"; "profitable_days"; "stablecoin_mcap";
                   "bull_peak"; "borrow_rate"];
       keywords := ["indicator"; "rsi"; "fear"; "greed"; "rainbow";
                    "cycle"; "sentiment"; "metric"; "coinbase"; "premium"] |} ].

(** [sub in s] for strings: [sub] occurs in [s] as a contiguous run. *)
Fixpoint str_in (sub s : string) : bool :=
  String.prefix sub s
  || match s with
     | EmptyString => false
     | String _ rest => str_in sub rest
     end.

(** One element of [matches], before it is made a dict. *)
Record Match : Type := {
  match_tool : string;
  match_actions : list string;
  relevance : nat
}.

Definition Match_dict (m : Match) : pyval :=
  PDict {[ "tool" := PStr (match_tool m);
           "actions" := py_strs (match_actions m);
           "relevance" := PInt (Z.of_nat (relevance m)) ]}.

(** [sum(1 for kw in info["keywords"] if kw in query_lower)] *)
Definition score (query_lower : string) (info : ToolInfo) : nat :=
  length (List.filter (λ kw, str_in kw query_lower) (keywords info)).

(** The loop over [tools_info.items()]. *)
Fixpoint collect_matches (query_lower : string) (infos : list ToolInfo) : list Match :=
  match infos with
  | [] => []
  | info :: rest =>
      let s := score query_lower info in
      if (0 <? s)%nat then
        {| match_tool := tool info; match_actions := actions info; relevance := s |}
        :: collect_matches query_lower rest
      else collect_matches query_lower rest
  end.

(** [matches.sort(key=lambda x: x["relevance"], reverse=True)]: the sort is
    stable, and with [reverse=True] elements of equal relevance still keep
    the order they had. *)
Fixpoint insert_by_relevance (m : Match) (sorted_tail : list Match) : list Match :=
  match sorted_tail with
  | [] => [m]
  | m' :: rest =>
      if (relevance m <? relevance m')%nat
      then m' :: insert_by_relevance m rest
      else m :: m' :: rest
  end.

Fixpoint sort_by_relevance (matches : list Match) : list Match :=
  match matches with
  | [] => []
  | m :: rest => insert_by_relevance m (sort_by_relevance rest)
  end.

Section Search.

(** Python's [str.lower]. *)
Variable lower : string → string.

Definition search_matches (query : string) : list Match :=
  sort_by_relevance (collect_matches (lower query) tools_info).

(** The tool does not read its [ctx]. *)
Definition coinglass_search (query : string) (ctx : option Context) : pyval :=
  let matches := search_matches query in
  ok "search"
     (PDict {[ "query" := PStr query;
               "matches" := PList (Match_dict <$> take 5 matches) ]})
     {[ "total_matches" := PInt (Z.of_nat (length matches)) ]}.

End Search.

End Tools.

(** * Properties *)

(** ** Python values *)

Lemma is_None_false (v : pyval) : is_None v = false ↔ v ≠ PNone.
Proof. destruct v; simpl; split; congruence. Qed.

Lemma py_eq_str_true (v : pyval) (s : string) : py_eq_str v s = true ↔ v = PStr s.
Proof.
  destruct v; simpl; try (split; congruence).
  rewrite String.eqb_eq. split; congruence.
Qed.

Lemma py_eq_str_false (v : pyval) (s : string) : py_eq_str v s = false ↔ v ≠ PStr s.
Proof.
  rewrite <- py_eq_str_true. destruct (py_eq_str v s); split; congruence.
Qed.

Lemma truthy_dict (d : gmap string pyval) : truthy (PDict d) = false ↔ d = ∅.
Proof.
  simpl. rewrite negb_false_iff, Nat.eqb_eq. apply map_size_empty_iff.
Qed.

Lemma truthy_dict_get (kwargs : gmap string pyval) (p : string) :
  truthy (dict_get kwargs p) = false ↔
  kwargs !! p = None ∨ ∃ v, kwargs !! p = Some v ∧ truthy v = false.
Proof.
  unfold dict_get. destruct (kwargs !! p) as [v|]; simpl.
  - split.
    + intros H. right. exists v. auto.
    + intros [H | (v' & H & Hv)]; congruence.
  - split; auto.
Qed.

Lemma drop_none_lookup (d : gmap string pyval) (k : string) (v : pyval) :
  drop_none d !! k = Some v ↔ d !! k = Some v ∧ v ≠ PNone.
Proof.
  unfold drop_none. rewrite map_lookup_filter_Some. simpl.
  by rewrite is_None_false.
Qed.

Lemma drop_none_null (d : gmap string pyval) (k : string) :
  d !! k = Some PNone → drop_none d !! k = None.
Proof.
  intros Hk. destruct (drop_none d !! k) as [v|] eqn:E; [|done].
  apply drop_none_lookup in E as [E Hv]. congruence.
Qed.

Lemma drop_none_no_null (d : gmap string pyval) (k : string) :
  drop_none d !! k ≠ Some PNone.
Proof. intros E. apply drop_none_lookup in E as [_ Hv]. congruence. Qed.

(** ** The static tables *)

Section Tables.
Import Config.

(** Every registered minimum plan is a non-empty string, so the truth test on
    [required] in [check_plan] passes for every registered action. *)
Lemma ACTION_PLAN_truthy (action required : string) :
  ACTION_PLAN !! action = Some required → String.eqb required "" = false.
Proof.
  revert action required. change (map_Forall (λ _ r, String.eqb r "" = false) ACTION_PLAN).
  apply (bool_decide_unpack _). by vm_compute.
Qed.

(** Every registered minimum plan is a plan above the lowest tier. *)
Lemma ACTION_PLAN_rank_pos (action required : string) :
  ACTION_PLAN !! action = Some required → 0 < Server.rank required.
Proof.
  revert action required. change (map_Forall (λ _ r, 0 < Server.rank r) ACTION_PLAN).
  apply (bool_decide_unpack _). by vm_compute.
Qed.

(** The interval table is monotone along the hierarchy. *)
Lemma PLAN_INTERVALS_monotone_table :
  map_Forall (λ p rp,
    map_Forall (λ q rq,
      rp ≤ rq → Server.allowed_intervals p ⊆ Server.allowed_intervals q)
      PLAN_HIERARCHY) PLAN_HIERARCHY.
Proof. apply (bool_decide_unpack _). by vm_compute. Qed.

End Tables.

(** ** The access gate *)

Section Gate.
Import Config Server.

Lemma check_interval_spec (c : Context) (interval : string) :
  check_interval (Some c) interval = Return tt ↔ interval ∈ allowed_intervals (plan c).
Proof.
  unfold check_interval. simpl. case_bool_decide as H.
  - split; [discriminate | intros Hin; destruct (H Hin)].
  - split; [intros _; exact H | reflexivity].
Qed.

Lemma check_interval_fails (c : Context) (interval : string) :
  interval ∉ allowed_intervals (plan c) →
  check_interval (Some c) interval =
    Raise (ValueError
      ("Interval '" ++ interval ++ "' not available for " ++ plan c ++ " plan. "
       ++ "Available intervals: " ++ join ", " (sorted (allowed_intervals (plan c))))).
Proof.
  intros H. unfold check_interval. simpl. by rewrite bool_decide_eq_true_2.
Qed.

(** C5. For every caller tier and interval, [check_interval] passes exactly
    when the interval is in the set [PLAN_INTERVALS] registers for the tier,
    and it raises otherwise; a tier that is not a key of [PLAN_INTERVALS] has
    the empty set and fails for every interval. Tier "hobbyist" rejects "m5"
    and accepts "h4"; tier "standard" accepts both. *)
Theorem check_interval_iff_registered :
  (∀ (c : Context) (interval : string),
     (check_interval (Some c) interval = Return tt ↔
      interval ∈ default ∅ (PLAN_INTERVALS !! plan c))
     ∧ (interval ∉ default ∅ (PLAN_INTERVALS !! plan c) ↔
        raises (check_interval (Some c) interval)))
  ∧ (∀ (c : Context) (interval : string),
       PLAN_INTERVALS !! plan c = None →
       default ∅ (PLAN_INTERVALS !! plan c) = ∅
       ∧ raises (check_interval (Some c) interval))
  ∧ (∀ cl : Client.CoinGlassClient,
       raises (check_interval (Some {| client := cl; plan := "hobbyist" |}) "m5")
       ∧ check_interval (Some {| client := cl; plan := "hobbyist" |}) "h4" = Return tt
       ∧ check_interval (Some {| client := cl; plan := "standard" |}) "m5" = Return tt
       ∧ check_interval (Some {| client := cl; plan := "standard" |}) "h4" = Return tt).
Proof.
  assert (Hfail : ∀ (c : Context) (interval : string),
             interval ∉ allowed_intervals (plan c) ↔
             raises (check_interval (Some c) interval)).
  { intros c interval. split.
    - intros H. by rewrite check_interval_fails.
    - intros H Hin. apply check_interval_spec in Hin. by rewrite Hin in H. }
  split; [|split].
  - intros c interval. split; [apply check_interval_spec | apply Hfail].
  - intros c interval Hnone. split; [by rewrite Hnone|].
    apply Hfail. unfold allowed_intervals. rewrite Hnone. simpl. set_solver.
  - intros cl. repeat split; by vm_compute.
Qed.

Lemma check_plan_registered (c : Context) (action required : string) :
  ACTION_PLAN !! action = Some required →
  check_plan (Some c) action =
    if rank (plan c) <? rank required then
      Raise (ValueError
        ("Action '" ++ action ++ "' requires " ++ required
         ++ " plan (current: " ++ plan c ++ "). "
         ++ "Upgrade at https://www.coinglass.com/pricing"))
    else Return tt.
Proof.
  intros Hreq. unfold check_plan. simpl. rewrite Hreq.
  by rewrite (ACTION_PLAN_truthy _ _ Hreq).
Qed.

Lemma check_plan_unregistered (c : Context) (action : string) :
  ACTION_PLAN !! action = None → check_plan (Some c) action = Return tt.
Proof. intros Hreq. unfold check_plan. simpl. by rewrite Hreq. Qed.

(** C6. For every action with a registered minimum plan, [check_plan] passes
    exactly when the rank of the caller's tier is at least the rank of the
    registered minimum, and raises otherwise; an action without a registered
    minimum passes for every caller tier. "orders" requires "standard": it
    rejects tier "hobbyist" and accepts "professional". *)
Theorem check_plan_iff_rank :
  (∀ (c : Context) (action required : string),
     ACTION_PLAN !! action = Some required →
     (check_plan (Some c) action = Return tt ↔ rank required ≤ rank (plan c))
     ∧ (raises (check_plan (Some c) action) ↔ rank (plan c) < rank required))
  ∧ (∀ (c : Context) (action : string),
       ACTION_PLAN !! action = None → check_plan (Some c) action = Return tt)
  ∧ (∀ cl : Client.CoinGlassClient,
       ACTION_PLAN !! "orders" = Some "standard"
       ∧ raises (check_plan (Some {| client := cl; plan := "hobbyist" |}) "orders")
       ∧ check_plan (Some {| client := cl; plan := "professional" |}) "orders" = Return tt).
Proof.
  split; [|split].
  - intros c action required Hreq. rewrite (check_plan_registered _ _ _ Hreq).
    destruct (Z.ltb_spec (rank (plan c)) (rank required)); simpl; split; split;
      intros; try done; lia.
  - apply check_plan_unregistered.
  - intros cl. repeat split; by vm_compute.
Qed.

Lemma missing_params_elem (required : list string) (kwargs : gmap string pyval) (p : string) :
  p ∈ missing_params required kwargs ↔
  p ∈ required ∧ (kwargs !! p = None ∨ ∃ v, kwargs !! p = Some v ∧ truthy v = false).
Proof.
  unfold missing_params. rewrite !list_elem_of_In, filter_In.
  by rewrite negb_true_iff, truthy_dict_get.
Qed.

Lemma check_params_raises (action : string) (kwargs : gmap string pyval) :
  raises (check_params action kwargs) ↔
  missing_params (required_params action) kwargs ≠ [].
Proof.
  unfold check_params. simpl.
  destruct (missing_params (required_params action) kwargs); simpl; split; done.
Qed.

(** C7. For every action and keyword-argument bag, [check_params] raises
    exactly when some name of the action's registered required list is absent
    from the bag or maps to a falsy value, and passes otherwise; the empty
    string, the number zero and [None] are falsy. An action without a
    registered list always passes. Action "pair" (requiring "exchange" and
    "pair") fails when "pair" is omitted although "exchange" is given. *)
Theorem check_params_fails_iff_missing :
  (∀ (action : string) (kwargs : gmap string pyval),
     (raises (check_params action kwargs) ↔
      ∃ p, p ∈ default [] (ACTION_PARAMS !! action)
           ∧ (kwargs !! p = None ∨ ∃ v, kwargs !! p = Some v ∧ truthy v = false))
     ∧ (check_params action kwargs = Return tt ∨ raises (check_params action kwargs)))
  ∧ (truthy (PStr "") = false ∧ truthy (PInt 0) = false ∧ truthy PNone = false)
  ∧ (∀ (action : string) (kwargs : gmap string pyval),
       ACTION_PARAMS !! action = None → check_params action kwargs = Return tt)
  ∧ (ACTION_PARAMS !! "pair" = Some ["exchange"; "pair"]
     ∧ check_params "pair" {[ "exchange" := PStr "Binance" ]} =
         Raise (ValueError "Action 'pair' requires parameters: pair")
     ∧ check_params "pair" {[ "exchange" := PStr "Binance"; "pair" := PStr "BTCUSDT" ]} =
         Return tt).
Proof.
  split; [|split; [|split]].
  - intros action kwargs. split.
    + rewrite check_params_raises. fold (required_params action). split.
      * intros Hne.
        destruct (missing_params (required_params action) kwargs) as [|p l] eqn:E; [done|].
        exists p. apply missing_params_elem. rewrite E. apply list_elem_of_here.
      * intros (p & Hp & Hv) E.
        assert (Hin : p ∈ missing_params (required_params action) kwargs)
          by (by apply missing_params_elem).
        rewrite E in Hin. by apply not_elem_of_nil in Hin.
    + unfold check_params. simpl.
      destruct (missing_params (required_params action) kwargs); simpl; auto.
  - done.
  - intros action kwargs Hnone. unfold check_params, required_params.
    by rewrite Hnone.
  - repeat split; by vm_compute.
Qed.

(** C8. For every action name, payload and bag of metadata fields, [ok]
    returns exactly the dict with the four keys "success" (true), "action"
    (the name), "data" (the payload) and "metadata", the given fields without
    those whose value is [None]: a field is in the metadata exactly when it
    was given with a value other than [None], so no metadata field is
    [None]. *)
Theorem ok_envelope (action : string) (data : pyval) (meta : gmap string pyval) :
  ∃ metadata : gmap string pyval,
    ok action data meta =
      PDict {[ "success" := PBool true;
               "action" := PStr action;
               "data" := data;
               "metadata" := PDict metadata ]}
    ∧ (∀ (k : string) (v : pyval),
         metadata !! k = Some v ↔ meta !! k = Some v ∧ v ≠ PNone)
    ∧ (∀ k : string, metadata !! k ≠ Some PNone).
Proof.
  exists (drop_none meta). split; [reflexivity|]. split.
  - apply drop_none_lookup.
  - apply drop_none_no_null.
Qed.

(** The keys of the envelope, read back. *)
Lemma ok_fields (action : string) (data : pyval) (meta : gmap string pyval) :
  ∃ d, ok action data meta = PDict d
       ∧ d !! "success" = Some (PBool true)
       ∧ d !! "action" = Some (PStr action)
       ∧ d !! "data" = Some data
       ∧ d !! "metadata" = Some (PDict (drop_none meta))
       ∧ size d = 4%nat.
Proof.
  eexists. split; [reflexivity|]. repeat split; by vm_compute.
Qed.

Lemma rank_unknown (p : string) : PLAN_HIERARCHY !! p = None → rank p = 0.
Proof. intros H. unfold rank. by rewrite H. Qed.

(** C9. A caller plan that is not a key of [PLAN_HIERARCHY] is not rejected
    as such: [check_plan] gives it rank 0, the rank of the lowest tier. It is
    therefore denied every action whose registered minimum has a rank above 0
    (which is every registered action) and allowed every action without a
    registered minimum. *)
Theorem check_plan_unknown_plan (c : Context) :
  PLAN_HIERARCHY !! plan c = None →
  rank (plan c) = 0
  ∧ rank (plan c) = rank "hobbyist"
  ∧ (∀ action required : string,
       ACTION_PLAN !! action = Some required → 0 < rank required →
       check_plan (Some c) action =
         Raise (ValueError
           ("Action '" ++ action ++ "' requires " ++ required
            ++ " plan (current: " ++ plan c ++ "). "
            ++ "Upgrade at https://www.coinglass.com/pricing")))
  ∧ (∀ action required : string,
       ACTION_PLAN !! action = Some required → raises (check_plan (Some c) action))
  ∧ (∀ action : string,
       ACTION_PLAN !! action = None → check_plan (Some c) action = Return tt).
Proof.
  intros Hunk. pose proof (rank_unknown _ Hunk) as Hr.
  assert (Hdeny : ∀ action required : string,
    ACTION_PLAN !! action = Some required → 0 < rank required →
    check_plan (Some c) action =
      Raise (ValueError
        ("Action '" ++ action ++ "' requires " ++ required
         ++ " plan (current: " ++ plan c ++ "). "
         ++ "Upgrade at https://www.coinglass.com/pricing"))).
  { intros action required Hreq Hpos. rewrite (check_plan_registered _ _ _ Hreq).
    rewrite Hr. destruct (Z.ltb_spec 0 (rank required)); [done | lia]. }
  repeat split.
  - exact Hr.
  - by rewrite Hr.
  - exact Hdeny.
  - intros action required Hreq.
    rewrite (Hdeny _ _ Hreq (ACTION_PLAN_rank_pos _ _ Hreq)). exact I.
  - apply check_plan_unregistered.
Qed.

Lemma check_plan_unknown_plan_witness :
  PLAN_HIERARCHY !! "free" = None
  ∧ raises (check_plan (Some (Fixtures.mock_context "free")) "alerts")
  ∧ check_plan (Some (Fixtures.mock_context "free")) "coins" = Return tt.
Proof.
  split; [reflexivity|].
  destruct (check_plan_unknown_plan (Fixtures.mock_context "free"))
    as (_ & _ & _ & Hdeny & Hallow).
  - reflexivity.
  - split.
    + apply (Hdeny "alerts" "startup"). reflexivity.
    + apply Hallow. reflexivity.
Defined.

(** C10. The interval sets are monotone in the plan order: for plans [p] and
    [q] of the hierarchy with the rank of [p] at most the rank of [q], the
    interval set of [p] is included in that of [q]; so an interval that
    [check_interval] accepts for [p] is accepted for [q]. *)
Theorem check_interval_monotone (cp cq : Context) :
  is_Some (PLAN_HIERARCHY !! plan cp) →
  is_Some (PLAN_HIERARCHY !! plan cq) →
  rank (plan cp) ≤ rank (plan cq) →
  default ∅ (PLAN_INTERVALS !! plan cp) ⊆ default ∅ (PLAN_INTERVALS !! plan cq)
  ∧ (∀ interval : string,
       check_interval (Some cp) interval = Return tt →
       check_interval (Some cq) interval = Return tt).
Proof.
  intros [rp Hp] [rq Hq] Hle.
  assert (Hsub : allowed_intervals (plan cp) ⊆ allowed_intervals (plan cq)).
  { apply (PLAN_INTERVALS_monotone_table _ _ Hp _ _ Hq).
    unfold rank in Hle. by rewrite Hp, Hq in Hle. }
  split; [exact Hsub|].
  intros interval. rewrite !check_interval_spec. apply Hsub.
Qed.

Lemma check_interval_monotone_witness :
  rank "startup" ≤ rank "enterprise"
  ∧ default ∅ (PLAN_INTERVALS !! "startup") ⊆ default ∅ (PLAN_INTERVALS !! "enterprise")
  ∧ check_interval (Some (Fixtures.mock_context "enterprise")) "m30" = Return tt.
Proof.
  assert (Hle : rank "startup" ≤ rank "enterprise") by (by vm_compute).
  split; [exact Hle|].
  destruct (check_interval_monotone
              (Fixtures.mock_context "startup") (Fixtures.mock_context "enterprise"))
    as [Hsub Hpass].
  - exists 1. reflexivity.
  - exists 4. reflexivity.
  - exact Hle.
  - split; [exact Hsub|]. apply Hpass. reflexivity.
Defined.

(** Outside the hierarchy the order says nothing: an unknown plan has rank 0,
    as "hobbyist" has, and no interval at all. *)
Lemma check_interval_unknown_plan_not_monotone (cl : Client.CoinGlassClient) :
  rank "hobbyist" ≤ rank "free"
  ∧ check_interval (Some {| client := cl; plan := "hobbyist" |}) "h4" = Return tt
  ∧ raises (check_interval (Some {| client := cl; plan := "free" |}) "h4").
Proof. repeat split; by vm_compute. Qed.

End Gate.

(** ** The retry decorator *)

Section Retrying.
Import Client.
Context {A : Type} (wait : nat → Z) (retry : exn → bool) (f : M A).

Lemma retrying_return (left n : nat) (w w' : World) (a : A) :
  f w = (Return a, w') → retrying wait retry left n f w = (Return a, w').
Proof. intros H. destruct left; simpl; by rewrite H. Qed.

Lemma retrying_reraise (left n : nat) (w w' : World) (e : exn) :
  f w = (Raise e, w') → retry e = false →
  retrying wait retry left n f w = (Raise e, w').
Proof. intros H Hr. destruct left; simpl; by rewrite H, Hr. Qed.

Lemma retrying_again (left n : nat) (w w' : World) (e : exn) :
  f w = (Raise e, w') → retry e = true →
  retrying wait retry (S left) n f w =
    retrying wait retry left (S n) f (record_sleep (wait n) w').
Proof. intros H Hr. simpl. by rewrite H, Hr. Qed.

Lemma retrying_exhausted (n : nat) (w w' : World) (e : exn) :
  f w = (Raise e, w') → retry e = true →
  retrying wait retry 0 n f w = (Raise (RetryError e), w').
Proof. intros H Hr. simpl. by rewrite H, Hr. Qed.

End Retrying.

Lemma wait_exponential_1 : Client.wait_exponential 1 1 10 1 = 1.
Proof. reflexivity. Qed.

Lemma wait_exponential_2 : Client.wait_exponential 1 1 10 2 = 2.
Proof. reflexivity. Qed.

(** X5. The backoff of the decorator: the delay slept after an attempt is at
    least one second, never exceeds the cap of ten seconds and never
    decreases from one attempt to the next. *)
Lemma wait_exponential_bounds (n : nat) :
  1 ≤ Client.wait_exponential 1 1 10 n ≤ 10
  ∧ Client.wait_exponential 1 1 10 n ≤ Client.wait_exponential 1 1 10 (S n).
Proof.
  unfold Client.wait_exponential. split; [lia|].
  assert (2 ^ (Z.of_nat n - 1) ≤ 2 ^ (Z.of_nat (S n) - 1)).
  { destruct n as [|n]; [done|]. apply Z.pow_le_mono_r; lia. }
  lia.
Qed.

(** ** The transport client *)

Section RequestProperties.
Import Client.

Variable upstream : nat → Request → result Response.
Variable py_str : pyval → string.
Variable self : CoinGlassClient.
Variable endpoint : string.
Variable params : option (gmap string pyval).

Abbreviation req := (build_request self endpoint params).
Abbreviation attempt := (request_attempt upstream py_str self endpoint params).
Abbreviation run := (request upstream py_str self endpoint params).

(** *** One attempt *)

Lemma py_get_world (data : pyval) (key : string) (dflt : pyval) (w : World) :
  (py_get data key dflt w).2 = w.
Proof. by destruct data. Qed.

(** An attempt issues exactly one HTTP call and never sleeps. *)
Lemma attempt_world (w : World) : (attempt w).2 = record_call req w.
Proof.
  unfold request_attempt, bind, http_get.
  destruct (upstream (length (calls w)) req) as [response|e]; [|done].
  destruct (status_code response =? 429); [done|].
  destruct (status_code response =? 403); [done|].
  destruct (status_code response =? 401); [done|].
  unfold raise_for_status.
  destruct ((200 <=? status_code response) && (status_code response <=? 299)); [|done].
  unfold response_json. destruct (json response) as [data|]; [|done].
  simpl. destruct data; try done. simpl.
  destruct (negb (py_eq_str _ "0")); done.
Qed.

Lemma attempt_transport_raises (w : World) (e : exn) :
  upstream (length (calls w)) req = Raise e →
  attempt w = (Raise e, record_call req w).
Proof. intros H. unfold request_attempt, bind, http_get. by rewrite H. Qed.

Lemma attempt_429 (w : World) (response : Response) :
  upstream (length (calls w)) req = Return response →
  status_code response = 429 →
  attempt w =
    (Raise (RateLimitError "Rate limit exceeded. Please wait before making more requests."),
     record_call req w).
Proof. intros H Hs. unfold request_attempt, bind, http_get. by rewrite H, Hs. Qed.

Lemma attempt_403 (w : World) (response : Response) :
  upstream (length (calls w)) req = Return response →
  status_code response = 403 →
  attempt w =
    (Raise (PlanLimitError
       "This feature requires a higher plan. Check your CoinGlass subscription."),
     record_call req w).
Proof. intros H Hs. unfold request_attempt, bind, http_get. by rewrite H, Hs. Qed.

Lemma attempt_401 (w : World) (response : Response) :
  upstream (length (calls w)) req = Return response →
  status_code response = 401 →
  attempt w =
    (Raise (APIError "Invalid API key. Please check your COINGLASS_API_KEY."),
     record_call req w).
Proof. intros H Hs. unfold request_attempt, bind, http_get. by rewrite H, Hs. Qed.

Lemma status_tests_other (s : Z) :
  s ≠ 429 → s ≠ 403 → s ≠ 401 →
  (s =? 429) = false ∧ (s =? 403) = false ∧ (s =? 401) = false.
Proof. lia. Qed.

(** A status outside 2xx that is none of 429, 403 and 401 leaves through
    [raise_for_status]. *)
Lemma attempt_http_error (w : World) (response : Response) :
  upstream (length (calls w)) req = Return response →
  status_code response ≠ 429 → status_code response ≠ 403 →
  status_code response ≠ 401 →
  ¬ (200 ≤ status_code response ≤ 299) →
  attempt w = (Raise (HTTPStatusError (status_code response)), record_call req w).
Proof.
  intros H H1 H2 H3 Hs. unfold request_attempt, bind, http_get. rewrite H.
  destruct (status_tests_other _ H1 H2 H3) as (-> & -> & ->).
  unfold raise_for_status.
  replace ((200 <=? status_code response) && (status_code response <=? 299))
    with false by lia.
  done.
Qed.

Lemma attempt_5xx (w : World) (response : Response) :
  upstream (length (calls w)) req = Return response →
  500 ≤ status_code response < 600 →
  attempt w = (Raise (HTTPStatusError (status_code response)), record_call req w)
  ∧ _is_retryable (HTTPStatusError (status_code response)) = true.
Proof.
  intros H Hs. split; [apply attempt_http_error; auto; lia|].
  simpl. lia.
Qed.

(** A 2xx response with a dict as body: the envelope is unwrapped. *)
Lemma attempt_envelope (w : World) (status : Z) (envelope : gmap string pyval) :
  upstream (length (calls w)) req =
    Return {| status_code := status; json := Some (PDict envelope) |} →
  200 ≤ status ≤ 299 →
  attempt w =
    (if py_eq_str (dict_get envelope "code") "0"
     then Return (dict_get envelope "data")
     else Raise (APIError
            ("API error: " ++ py_str (dict_get_default envelope "msg" (PStr "Unknown error")))),
     record_call req w).
Proof.
  intros H Hs. unfold request_attempt, bind, http_get. rewrite H. simpl.
  destruct (status_tests_other status) as (-> & -> & ->); try lia.
  unfold raise_for_status. simpl.
  replace ((200 <=? status) && (status <=? 299)) with true by lia.
  simpl. unfold dict_get. fold (dict_get envelope "code").
  unfold dict_get_default at 1. fold (dict_get envelope "code").
  by destruct (py_eq_str (dict_get envelope "code") "0").
Qed.

(** *** The decorated function *)

Lemma request_unfold :
  run = retrying (wait_exponential 1 1 10) _is_retryable 2 1 attempt.
Proof. reflexivity. Qed.

(** A first attempt that returns, or that raises an exception which is not
    retryable, ends the call: one HTTP call, no sleep. *)
Lemma request_first_return (w : World) (a : pyval) :
  attempt w = (Return a, record_call req w) → run w = (Return a, record_call req w).
Proof. intros H. rewrite request_unfold. by apply retrying_return. Qed.

Lemma request_first_reraise (w : World) (e : exn) :
  attempt w = (Raise e, record_call req w) → _is_retryable e = false →
  run w = (Raise e, record_call req w).
Proof. intros H Hr. rewrite request_unfold. by apply retrying_reraise. Qed.

(** The calls of [request]: between one and three, all of them the same
    [http.get] call. *)
Lemma retrying_calls (left k : nat) (w : World) :
  ∃ n : nat, (1 ≤ n ≤ S left)%nat
    ∧ calls (retrying (wait_exponential 1 1 10) _is_retryable left k attempt w).2
      = (calls w ++ replicate n req)%list.
Proof.
  revert k w. induction left as [|left IH]; intros k w.
  - exists 1%nat. split; [lia|]. simpl.
    pose proof (attempt_world w) as Hw. destruct (attempt w) as [[a|e] w']; simpl in *.
    + by rewrite Hw.
    + destruct (_is_retryable e); simpl; by rewrite Hw.
  - pose proof (attempt_world w) as Hw. simpl.
    destruct (attempt w) as [[a|e] w']; simpl in *.
    + exists 1%nat. split; [lia|]. by rewrite Hw.
    + destruct (_is_retryable e); simpl.
      * destruct (IH (S k) (record_sleep (wait_exponential 1 1 10 k) w')) as (n & Hn & Hc).
        exists (S n). split; [lia|]. rewrite Hc, Hw. simpl.
        by rewrite <- app_assoc.
      * exists 1%nat. split; [lia|]. by rewrite Hw.
Qed.

Lemma request_calls (w : World) :
  ∃ n : nat, (1 ≤ n ≤ 3)%nat ∧ calls (run w).2 = (calls w ++ replicate n req)%list.
Proof. rewrite request_unfold. apply retrying_calls. Qed.

(** A retryable failure of the first attempt is followed by a sleep of one
    second and a second attempt; a retryable failure of the second by a sleep
    of two seconds and a third attempt. *)
Lemma request_retries (w : World) (e : exn) :
  attempt w = (Raise e, record_call req w) → _is_retryable e = true →
  run w = retrying (wait_exponential 1 1 10) _is_retryable 1 2 attempt
            (record_sleep 1 (record_call req w)).
Proof. intros H Hr. rewrite request_unfold. by rewrite (retrying_again _ _ _ _ _ _ _ _ H Hr). Qed.

(** Three retryable failures in a row: the decorator gives up, and what it
    raises is [RetryError] around the third failure, not the failure. *)
Lemma request_exhausted (w : World) (e1 e2 e3 : exn) :
  let w1 := record_sleep 1 (record_call req w) in
  let w2 := record_sleep 2 (record_call req w1) in
  attempt w = (Raise e1, record_call req w) → _is_retryable e1 = true →
  attempt w1 = (Raise e2, record_call req w1) → _is_retryable e2 = true →
  attempt w2 = (Raise e3, record_call req w2) → _is_retryable e3 = true →
  run w = (Raise (RetryError e3), record_call req w2).
Proof.
  intros w1 w2 H1 Hr1 H2 Hr2 H3 Hr3. rewrite request_unfold.
  rewrite (retrying_again _ _ _ _ _ _ _ _ H1 Hr1), wait_exponential_1. fold w1.
  rewrite (retrying_again _ _ _ _ _ _ _ _ H2 Hr2), wait_exponential_2. fold w2.
  by apply retrying_exhausted.
Qed.

End RequestProperties.

Section RequestClaims.
Import Client.

Lemma params_or_empty_Some (bag : gmap string pyval) : params_or_empty (Some bag) = bag.
Proof.
  unfold params_or_empty. destruct (truthy (PDict bag)) eqn:E; [done|].
  apply truthy_dict in E. by subst.
Qed.

Lemma drop_none_empty : drop_none ∅ = ∅.
Proof. apply map_filter_empty. Qed.

Lemma build_request_eq (self : CoinGlassClient) (endpoint : string)
    (p : option (gmap string pyval)) :
  build_request self endpoint p =
    {| url := base_url self ++ endpoint;
       params := params_or_None (drop_none (params_or_empty p));
       headers := {[ "CG-API-KEY" := api_key self ]};
       timeout := Config.TIMEOUT |}.
Proof. reflexivity. Qed.

(** What [request] hands to [http.get] as [params]. *)
Lemma build_request_params (self : CoinGlassClient) (endpoint : string)
    (bag : gmap string pyval) :
  params (build_request self endpoint (Some bag)) =
    if truthy (PDict (drop_none bag)) then Some (drop_none bag) else None.
Proof. rewrite build_request_eq. cbn [params]. by rewrite params_or_empty_Some. Qed.

Lemma build_request_no_params (self : CoinGlassClient) (endpoint : string) :
  params (build_request self endpoint None) = None.
Proof. reflexivity. Qed.

Lemma build_request_all_null (self : CoinGlassClient) (endpoint : string)
    (bag : gmap string pyval) :
  drop_none bag = ∅ →
  build_request self endpoint (Some bag) = build_request self endpoint None.
Proof.
  intros E. rewrite !build_request_eq, params_or_empty_Some, E.
  cbn [params_or_empty]. by rewrite drop_none_empty.
Qed.

(** C1, where the code departs from it. The retries are there: when the
    upstream answers 500 to every call, or every call fails to connect or
    times out, [request] makes three calls and sleeps one and two seconds
    between them. But what escapes after the third failure is tenacity's
    [RetryError] around that failure, an exception of another class, while
    C1 has the last failure escape unchanged in kind and the docstring of
    [request] lists [httpx.HTTPStatusError] for HTTP errors. *)
Theorem request_exhausted_raises_RetryError :
  let req := build_request Fixtures.client "/api/test" None in
  let exhausted := {| calls := [req; req; req]; sleeps := [1; 2] |} in
  request (Fixtures.always {| status_code := 500; json := None |}) Fixtures.str
      Fixtures.client "/api/test" None fresh
    = (Raise (RetryError (HTTPStatusError 500)), exhausted)
  ∧ request (Fixtures.always_raises ConnectError) Fixtures.str
      Fixtures.client "/api/test" None fresh
    = (Raise (RetryError ConnectError), exhausted)
  ∧ request (Fixtures.always_raises TimeoutException) Fixtures.str
      Fixtures.client "/api/test" None fresh
    = (Raise (RetryError TimeoutException), exhausted)
  ∧ class_of (RetryError (HTTPStatusError 500)) ≠ class_of (HTTPStatusError 500)
  ∧ class_of (RetryError ConnectError) ≠ class_of ConnectError
  ∧ class_of (RetryError TimeoutException) ≠ class_of TimeoutException.
Proof.
  intros req exhausted.
  split; [|split; [|split; [|repeat split; discriminate]]].
  - by apply (request_exhausted _ _ _ _ _ fresh
                (HTTPStatusError 500) (HTTPStatusError 500) (HTTPStatusError 500)).
  - by apply (request_exhausted _ _ _ _ _ fresh ConnectError ConnectError ConnectError).
  - by apply (request_exhausted _ _ _ _ _ fresh
                TimeoutException TimeoutException TimeoutException).
Qed.

(** C2 as stated fails: at HTTP 401 [request] raises the same class as for an
    envelope whose code is not "0", [APIError] in both cases, so the error
    for 401 is not of a kind distinct from the generic API failure. *)
Lemma request_401_same_class_as_api_failure :
  ¬ (∀ e_auth e_api : exn,
       (request (Fixtures.always {| status_code := 401; json := None |}) Fixtures.str
          Fixtures.client "/api/test" None fresh).1 = Raise e_auth →
       (request (Fixtures.always (Fixtures.mock_response PNone "1" "Invalid parameter"))
          Fixtures.str Fixtures.client "/api/test" None fresh).1 = Raise e_api →
       class_of e_auth ≠ class_of e_api).
Proof.
  intros H.
  apply (H (APIError "Invalid API key. Please check your COINGLASS_API_KEY.")
           (APIError "API error: Invalid parameter")); reflexivity.
Qed.

(** C2, amended. For every response with status 429, 403 or 401, [request]
    makes exactly one HTTP call, does not sleep and raises an exception that
    is not retryable: [RateLimitError] for 429, [PlanLimitError] for 403 and,
    for 401, [APIError] with the message "Invalid API key. Please check your
    COINGLASS_API_KEY.", the class also raised for an envelope whose code is
    not "0". *)
Theorem request_typed_errors_no_retry
    (upstream : nat → Request → result Response) (py_str : pyval → string)
    (self : CoinGlassClient) (endpoint : string)
    (params : option (gmap string pyval)) (w : World) (response : Response) :
  upstream (length (calls w)) (build_request self endpoint params) = Return response →
  status_code response = 429 ∨ status_code response = 403 ∨ status_code response = 401 →
  ∃ e : exn,
    request upstream py_str self endpoint params w
      = (Raise e, record_call (build_request self endpoint params) w)
    ∧ _is_retryable e = false
    ∧ (status_code response = 429 →
       e = RateLimitError "Rate limit exceeded. Please wait before making more requests.")
    ∧ (status_code response = 403 →
       e = PlanLimitError
             "This feature requires a higher plan. Check your CoinGlass subscription.")
    ∧ (status_code response = 401 →
       e = APIError "Invalid API key. Please check your COINGLASS_API_KEY."
       ∧ class_of e = CAPIError).
Proof.
  intros Hup [Hs | [Hs | Hs]].
  - exists (RateLimitError "Rate limit exceeded. Please wait before making more requests.").
    split.
    { apply request_first_reraise; [by apply (attempt_429 _ _ _ _ _ _ response)|done]. }
    split; [done|]. split; [done|]. split; intros; lia.
  - exists (PlanLimitError
              "This feature requires a higher plan. Check your CoinGlass subscription.").
    split.
    { apply request_first_reraise; [by apply (attempt_403 _ _ _ _ _ _ response)|done]. }
    split; [done|]. split; [intros; lia|]. split; [done|]. intros; lia.
  - exists (APIError "Invalid API key. Please check your COINGLASS_API_KEY.").
    split.
    { apply request_first_reraise; [by apply (attempt_401 _ _ _ _ _ _ response)|done]. }
    split; [done|]. split; [intros; lia|]. split; [intros; lia|]. done.
Qed.

Lemma request_typed_errors_no_retry_witness :
  ∃ e : exn,
    request (Fixtures.always {| status_code := 401; json := None |}) Fixtures.str
        Fixtures.client "/api/test" None fresh
      = (Raise e, record_call (build_request Fixtures.client "/api/test" None) fresh)
    ∧ _is_retryable e = false
    ∧ class_of e = CAPIError.
Proof.
  destruct (request_typed_errors_no_retry
              (Fixtures.always {| status_code := 401; json := None |}) Fixtures.str
              Fixtures.client "/api/test" None fresh
              {| status_code := 401; json := None |})
    as (e & Hrun & Hnr & _ & _ & H401).
  - reflexivity.
  - right. right. reflexivity.
  - exists e. split; [exact Hrun|]. split; [exact Hnr|]. apply H401. reflexivity.
Defined.

Lemma request_all_null (upstream : nat → Request → result Response)
    (py_str : pyval → string) (self : CoinGlassClient) (endpoint : string)
    (bag : gmap string pyval) :
  drop_none bag = ∅ →
  request upstream py_str self endpoint (Some bag) = request upstream py_str self endpoint None.
Proof.
  intros E. unfold request, request_attempt.
  by rewrite (build_request_all_null _ _ _ E).
Qed.

(** C3. For every parameter bag passed to [request], every [http.get] call it
    makes (there are between one and three, all alike) carries as [params]
    the bag without the keys whose value is [None]: such a key is never in
    the transmitted parameters, the other keys are transmitted with their
    values. When nothing is left after filtering, [params] is [None], not an
    empty dict, and the whole call behaves as [request] without params. *)
Theorem request_strips_null_params
    (upstream : nat → Request → result Response) (py_str : pyval → string)
    (self : CoinGlassClient) (endpoint : string)
    (bag : gmap string pyval) (w : World) :
  ∃ (n : nat) (sent : option (gmap string pyval)),
    (1 ≤ n ≤ 3)%nat
    ∧ calls (request upstream py_str self endpoint (Some bag) w).2
      = (calls w ++ replicate n
           {| url := base_url self ++ endpoint;
              params := sent;
              headers := {[ "CG-API-KEY" := api_key self ]};
              timeout := 30 |})%list
    ∧ (∀ k : string, bag !! k = Some PNone →
         ∀ q : gmap string pyval, sent = Some q → q !! k = None)
    ∧ (∀ q : gmap string pyval, sent = Some q →
         q ≠ ∅
         ∧ ∀ (k : string) (v : pyval), q !! k = Some v ↔ bag !! k = Some v ∧ v ≠ PNone)
    ∧ (sent = None ↔ drop_none bag = ∅)
    ∧ (drop_none bag = ∅ →
         request upstream py_str self endpoint (Some bag) w
         = request upstream py_str self endpoint None w).
Proof.
  destruct (request_calls upstream py_str self endpoint (Some bag) w) as (n & Hn & Hc).
  exists n, (params_or_None (drop_none bag)).
  split; [exact Hn|]. split.
  { rewrite Hc, build_request_eq, params_or_empty_Some. reflexivity. }
  unfold params_or_None.
  destruct (truthy (PDict (drop_none bag))) eqn:E.
  - assert (Hne : drop_none bag ≠ ∅).
    { intros Hemp. apply truthy_dict in Hemp. congruence. }
    split; [|split; [|split; [|done]]].
    + intros k Hk q [= <-]. by apply drop_none_null.
    + intros q [= <-]. split; [exact Hne|]. apply drop_none_lookup.
    + split; [discriminate | done].
  - apply truthy_dict in E.
    split; [|split; [|split]].
    + intros k Hk q Hq. discriminate.
    + intros q Hq. discriminate.
    + done.
    + intros _. by rewrite request_all_null.
Qed.

(** C4. For every 2xx response whose body is an envelope: when its code is
    the string "0", [request] returns the data field as it was received,
    whatever value that is ([None] when the field is absent); for any other
    code it raises [APIError] with the message "API error: " followed by the
    upstream msg, or by "Unknown error" when msg is absent, and returns
    nothing. In both cases it makes one HTTP call and does not sleep. *)
Theorem request_unwraps_envelope
    (upstream : nat → Request → result Response) (py_str : pyval → string)
    (self : CoinGlassClient) (endpoint : string)
    (params : option (gmap string pyval)) (w : World)
    (status : Z) (envelope : gmap string pyval) :
  (∀ s : string, py_str (PStr s) = s) →
  upstream (length (calls w)) (build_request self endpoint params)
    = Return {| status_code := status; json := Some (PDict envelope) |} →
  200 ≤ status ≤ 299 →
  let out := request upstream py_str self endpoint params w in
  out.2 = record_call (build_request self endpoint params) w
  ∧ (envelope !! "code" = Some (PStr "0") →
       out.1 = Return (default PNone (envelope !! "data"))
       ∧ ∀ x : pyval, envelope !! "data" = Some x → out.1 = Return x)
  ∧ (envelope !! "code" ≠ Some (PStr "0") →
       raises out.1
       ∧ (∀ m : string, envelope !! "msg" = Some (PStr m) →
            out.1 = Raise (APIError ("API error: " ++ m)))
       ∧ (envelope !! "msg" = None →
            out.1 = Raise (APIError "API error: Unknown error"))).
Proof.
  intros Hstr Hup Hs out.
  pose proof (attempt_envelope upstream py_str self endpoint params w status envelope Hup Hs)
    as Hatt.
  destruct (py_eq_str (dict_get envelope "code") "0") eqn:Hcode.
  - apply py_eq_str_true in Hcode.
    assert (Hout : out = (Return (dict_get envelope "data"),
                          record_call (build_request self endpoint params) w)).
    { by apply request_first_return. }
    rewrite Hout. simpl. split; [done|]. split.
    + intros _. split; [done|]. intros x Hx. unfold dict_get. by rewrite Hx.
    + intros Hne. exfalso. apply Hne. unfold dict_get in Hcode.
      destruct (envelope !! "code") as [c|]; simpl in Hcode; congruence.
  - apply py_eq_str_false in Hcode.
    assert (Hout : out = (Raise (APIError ("API error: " ++
                            py_str (dict_get_default envelope "msg" (PStr "Unknown error")))),
                          record_call (build_request self endpoint params) w)).
    { by apply request_first_reraise. }
    rewrite Hout. simpl. split; [done|]. split.
    + intros Hc. exfalso. apply Hcode. unfold dict_get. by rewrite Hc.
    + intros _. split; [done|]. unfold dict_get_default. split.
      * intros m Hm. rewrite Hm. simpl. by rewrite Hstr.
      * intros Hm. rewrite Hm. simpl. by rewrite Hstr.
Qed.

(** The two end-to-end scenarios: params [{symbol: "BTC", exchange: None}]
    against an upstream answering [{code: "0", data: [{"symbol": "BTC"}]}],
    and an upstream answering [{code: "1", msg: "Invalid parameter"}]. *)
Lemma request_unwraps_envelope_witness :
  (request (Fixtures.always (Fixtures.mock_response Fixtures.btc_rows "0" "success"))
     Fixtures.str Fixtures.client "/api/futures/coins-markets"
     (Some Fixtures.btc_params) fresh).1 = Return Fixtures.btc_rows
  ∧ (request (Fixtures.always (Fixtures.mock_response PNone "1" "Invalid parameter"))
       Fixtures.str Fixtures.client "/api/test" None fresh).1
    = Raise (APIError "API error: Invalid parameter").
Proof.
  pose (bag := Fixtures.btc_params). pose (data := Fixtures.btc_rows). split.
  - destruct (request_unwraps_envelope
                (Fixtures.always (Fixtures.mock_response data "0" "success")) Fixtures.str
                Fixtures.client "/api/futures/coins-markets" (Some bag) fresh 200
                {[ "code" := PStr "0"; "msg" := PStr "success"; "data" := data ]})
      as (_ & Hok & _).
    + intros s. reflexivity.
    + reflexivity.
    + lia.
    + apply Hok; reflexivity.
  - destruct (request_unwraps_envelope
                (Fixtures.always (Fixtures.mock_response PNone "1" "Invalid parameter"))
                Fixtures.str Fixtures.client "/api/test" None fresh 200
                {[ "code" := PStr "1"; "msg" := PStr "Invalid parameter"; "data" := PNone ]})
      as (_ & _ & Herr).
    + intros s. reflexivity.
    + reflexivity.
    + lia.
    + apply Herr; [|reflexivity]. vm_compute. discriminate.
Defined.

End RequestClaims.

(** ** More on the transport client *)

Section RequestMore.
Import Client.

Variable upstream : nat → Request → result Response.
Variable py_str : pyval → string.
Variable self : CoinGlassClient.
Variable endpoint : string.
Variable params : option (gmap string pyval).

Abbreviation req := (build_request self endpoint params).
Abbreviation attempt := (request_attempt upstream py_str self endpoint params).
Abbreviation run := (request upstream py_str self endpoint params).

Lemma attempt_pair (w : World) : attempt w = ((attempt w).1, record_call req w).
Proof. rewrite <- (attempt_world upstream py_str self endpoint params w). by destruct (attempt w). Qed.

(** An attempt returns a value only for a 2xx response whose body is a dict
    with the code "0". *)
Lemma attempt_return_inv (w : World) (x : pyval) :
  (attempt w).1 = Return x →
  ∃ (status : Z) (envelope : gmap string pyval),
    upstream (length (calls w)) req
      = Return {| status_code := status; json := Some (PDict envelope) |}
    ∧ 200 ≤ status ≤ 299
    ∧ envelope !! "code" = Some (PStr "0")
    ∧ x = default PNone (envelope !! "data").
Proof.
  unfold request_attempt, bind, http_get.
  destruct (upstream (length (calls w)) req) as [[status body]|e]; [|done]. simpl.
  destruct (status =? 429); [done|].
  destruct (status =? 403); [done|].
  destruct (status =? 401); [done|].
  unfold raise_for_status. simpl.
  destruct ((200 <=? status) && (status <=? 299)) eqn:Hs; [|done].
  unfold response_json. simpl. destruct body as [data|]; [|done]. simpl.
  destruct data as [| | | | | |envelope]; try done. simpl.
  destruct (py_eq_str (dict_get_default envelope "code" PNone) "0") eqn:Hc; [|done].
  simpl. intros [= <-]. exists status, envelope.
  split; [done|]. split; [lia|]. split; [|done].
  apply py_eq_str_true in Hc. unfold dict_get_default in Hc.
  destruct (envelope !! "code") as [c|]; simpl in Hc; congruence.
Qed.

Lemma retrying_return_inv (left k : nat) (w w' : World) (x : pyval) :
  retrying (wait_exponential 1 1 10) _is_retryable left k attempt w = (Return x, w') →
  ∃ w0 : World, attempt w0 = (Return x, w').
Proof.
  revert k w. induction left as [|left IH]; intros k w; simpl.
  - destruct (attempt w) as [[a|e] w1] eqn:E.
    + intros [= <- <-]. by exists w.
    + destruct (_is_retryable e); discriminate.
  - destruct (attempt w) as [[a|e] w1] eqn:E.
    + intros [= <- <-]. by exists w.
    + destruct (_is_retryable e); [apply IH | discriminate].
Qed.

(** X6. [request] never turns a failure into a value: when it returns [x],
    its last HTTP call was answered by a 2xx response whose body is a dict
    with code "0", and [x] is the data field of that body. *)
Theorem request_returns_only_envelope_data (w w' : World) (x : pyval) :
  run w = (Return x, w') →
  ∃ (status : Z) (envelope : gmap string pyval),
    upstream (length (calls w') - 1)%nat req
      = Return {| status_code := status; json := Some (PDict envelope) |}
    ∧ 200 ≤ status ≤ 299
    ∧ envelope !! "code" = Some (PStr "0")
    ∧ x = default PNone (envelope !! "data").
Proof.
  rewrite request_unfold. intros Hrun.
  apply retrying_return_inv in Hrun as [w0 H0].
  rewrite attempt_pair in H0. injection H0 as Hx Hw.
  apply attempt_return_inv in Hx as (status & envelope & Hup & Hrest).
  exists status, envelope. split; [|exact Hrest].
  rewrite <- Hw. unfold record_call. simpl. rewrite length_app. simpl.
  by replace (length (calls w0) + 1 - 1)%nat with (length (calls w0)) by lia.
Qed.

(** X1. A response whose status is outside 2xx and 5xx and is none of 429,
    403 and 401 (a 404, a redirect) makes [request] raise [HTTPStatusError]
    with that status after a single HTTP call, without sleeping. *)
Theorem request_other_status_no_retry (w : World) (response : Response) :
  upstream (length (calls w)) req = Return response →
  status_code response ≠ 429 → status_code response ≠ 403 →
  status_code response ≠ 401 →
  ¬ (200 ≤ status_code response ≤ 299) →
  ¬ (500 ≤ status_code response < 600) →
  run w = (Raise (HTTPStatusError (status_code response)), record_call req w).
Proof.
  intros Hup H1 H2 H3 H2xx H5xx. apply request_first_reraise.
  - by apply attempt_http_error.
  - simpl. lia.
Qed.

(** X4. A 2xx response whose body cannot be used as an envelope ends the
    call at once, with one HTTP call and no retry: [JSONDecodeError] when the
    body is not JSON, [AttributeError] when it is JSON but not an object. *)
Theorem request_unusable_body (w : World) (status : Z) (body : option pyval) :
  upstream (length (calls w)) req = Return {| status_code := status; json := body |} →
  200 ≤ status ≤ 299 →
  (body = None → run w = (Raise JSONDecodeError, record_call req w))
  ∧ (∀ v : pyval, body = Some v → (∀ d, v ≠ PDict d) →
       run w = (Raise (AttributeError
                         ("'" ++ type_name v ++ "' object has no attribute 'get'")),
                record_call req w)).
Proof.
  intros Hup Hs.
  assert (Hatt : ∀ r, (attempt w).1 = r → attempt w = (r, record_call req w)).
  { intros r <-. apply attempt_pair. }
  assert (Hfst : (attempt w).1 =
    match body with
    | None => Raise JSONDecodeError
    | Some (PDict d) => (attempt w).1
    | Some v => Raise (AttributeError ("'" ++ type_name v ++ "' object has no attribute 'get'"))
    end).
  { unfold request_attempt, bind, http_get. rewrite Hup. simpl.
    destruct (status_tests_other status) as (-> & -> & ->); try lia.
    unfold raise_for_status. simpl.
    replace ((200 <=? status) && (status <=? 299)) with true by lia.
    simpl. unfold response_json. simpl. destruct body as [v|]; [|done].
    simpl. by destruct v. }
  split.
  - intros ->. apply request_first_reraise; [by apply Hatt | done].
  - intros v -> Hnd. apply request_first_reraise; [|done].
    apply Hatt. rewrite Hfst. destruct v; try done. by destruct (Hnd d).
Qed.



(** X2. One transient failure is absorbed: when the first HTTP call fails
    with a retryable error (a retryable exception of the transport, or a 5xx
    response) and the second is answered by a 2xx envelope with code "0",
    [request] returns the data of the second answer, after two calls and one
    sleep of one second. *)
Theorem request_recovers_after_one_failure (w : World) (status : Z)
    (envelope : gmap string pyval) :
  ((∃ e : exn, upstream (length (calls w)) req = Raise e ∧ _is_retryable e = true)
   ∨ (∃ response : Response, upstream (length (calls w)) req = Return response
        ∧ 500 ≤ status_code response < 600)) →
  upstream (S (length (calls w))) req
    = Return {| status_code := status; json := Some (PDict envelope) |} →
  200 ≤ status ≤ 299 →
  envelope !! "code" = Some (PStr "0") →
  run w = (Return (default PNone (envelope !! "data")),
           record_call req (record_sleep 1 (record_call req w))).
Proof.
  intros Hfirst Hsecond Hs Hcode.
  assert (∃ e, attempt w = (Raise e, record_call req w) ∧ _is_retryable e = true)
    as (e & Hatt & Hr).
  { destruct Hfirst as [(e & Hup & Hr) | (response & Hup & H5)].
    - exists e. split; [by apply attempt_transport_raises | exact Hr].
    - exists (HTTPStatusError (status_code response)).
      by apply attempt_5xx. }
  rewrite (request_retries _ _ _ _ _ _ _ Hatt Hr).
  apply retrying_return.
  set (w1 := record_sleep 1 (record_call req w)).
  assert (Hlen : length (calls w1) = S (length (calls w))).
  { unfold w1. simpl. rewrite length_app. simpl. lia. }
  rewrite <- Hlen in Hsecond.
  rewrite (attempt_envelope _ _ _ _ _ _ _ _ Hsecond Hs).
  unfold dict_get. rewrite Hcode. reflexivity.
Qed.

End RequestMore.

Section RequestMoreWitnesses.
Import Client.

Lemma request_other_status_no_retry_witness :
  request (Fixtures.always {| status_code := 404; json := None |}) Fixtures.str
      Fixtures.client "/api/test" None fresh
    = (Raise (HTTPStatusError 404),
       record_call (build_request Fixtures.client "/api/test" None) fresh).
Proof.
  apply (request_other_status_no_retry
           (Fixtures.always {| status_code := 404; json := None |}) Fixtures.str
           Fixtures.client "/api/test" None fresh {| status_code := 404; json := None |});
    simpl; [reflexivity | lia..].
Defined.

Lemma request_unusable_body_witness :
  request (Fixtures.always {| status_code := 200; json := Some (PList []) |}) Fixtures.str
      Fixtures.client "/api/test" None fresh
    = (Raise (AttributeError "'list' object has no attribute 'get'"),
       record_call (build_request Fixtures.client "/api/test" None) fresh).
Proof.
  destruct (request_unusable_body
              (Fixtures.always {| status_code := 200; json := Some (PList []) |}) Fixtures.str
              Fixtures.client "/api/test" None fresh 200 (Some (PList []))) as [_ H].
  - reflexivity.
  - lia.
  - apply (H (PList [])); [reflexivity | discriminate].
Defined.

Lemma request_returns_only_envelope_data_witness :
  ∃ (status : Z) (envelope : gmap string pyval),
    Fixtures.mock_response Fixtures.btc_rows "0" "success"
      = {| status_code := status; json := Some (PDict envelope) |}
    ∧ 200 ≤ status ≤ 299
    ∧ envelope !! "code" = Some (PStr "0")
    ∧ Fixtures.btc_rows = default PNone (envelope !! "data").
Proof.
  destruct (request_returns_only_envelope_data
              (Fixtures.always (Fixtures.mock_response Fixtures.btc_rows "0" "success"))
              Fixtures.str Fixtures.client "/api/test" None fresh
              (record_call (build_request Fixtures.client "/api/test" None) fresh)
              Fixtures.btc_rows) as (status & envelope & Hup & Hrest).
  - reflexivity.
  - exists status, envelope. split; [|exact Hrest].
    unfold Fixtures.always in Hup. congruence.
Defined.

Lemma request_recovers_after_one_failure_witness :
  request (Fixtures.fails_once ConnectError
             (Fixtures.mock_response Fixtures.btc_rows "0" "success"))
      Fixtures.str Fixtures.client "/api/test" None fresh
    = (Return Fixtures.btc_rows,
       {| calls := [build_request Fixtures.client "/api/test" None;
                    build_request Fixtures.client "/api/test" None];
          sleeps := [1] |}).
Proof.
  refine (request_recovers_after_one_failure
            (Fixtures.fails_once ConnectError
               (Fixtures.mock_response Fixtures.btc_rows "0" "success"))
            Fixtures.str Fixtures.client "/api/test" None fresh 200
            {[ "code" := PStr "0"; "msg" := PStr "success"; "data" := Fixtures.btc_rows ]}
            _ _ _ _).
  - left. exists ConnectError. split; reflexivity.
  - reflexivity.
  - lia.
  - reflexivity.
Defined.

End RequestMoreWitnesses.

(** ** More on the access gate *)

Section GateMore.
Import Config Server.

Lemma ACTION_PLAN_rank_le_professional (action required : string) :
  ACTION_PLAN !! action = Some required → rank required ≤ rank "professional".
Proof.
  revert action required.
  change (map_Forall (λ _ r, rank r ≤ rank "professional") ACTION_PLAN).
  apply (bool_decide_unpack _). by vm_compute.
Qed.

Lemma allowed_intervals_enterprise (p : string) :
  allowed_intervals p ⊆ allowed_intervals "enterprise".
Proof.
  unfold allowed_intervals at 1. destruct (PLAN_INTERVALS !! p) as [s|] eqn:E; simpl.
  - revert p s E.
    change (map_Forall (λ _ s, s ⊆ allowed_intervals "enterprise") PLAN_INTERVALS).
    apply (bool_decide_unpack _). by vm_compute.
  - set_solver.
Qed.

(** X7. The plan gate is monotone in the rank, for every action and for any
    two plan strings, known or not: a caller that passes [check_plan] still
    passes it with any plan of equal or higher rank. *)
Theorem check_plan_monotone (cp cq : Context) (action : string) :
  rank (plan cp) ≤ rank (plan cq) →
  check_plan (Some cp) action = Return tt →
  check_plan (Some cq) action = Return tt.
Proof.
  intros Hle. destruct (ACTION_PLAN !! action) as [required|] eqn:E.
  - rewrite !(check_plan_registered _ _ _ E).
    destruct (Z.ltb_spec (rank (plan cp)) (rank required)); [discriminate|].
    intros _. destruct (Z.ltb_spec (rank (plan cq)) (rank required)); [lia | done].
  - intros _. by apply check_plan_unregistered.
Qed.

Lemma check_plan_monotone_witness :
  check_plan (Some (Fixtures.mock_context "enterprise")) "orders" = Return tt.
Proof.
  apply (check_plan_monotone (Fixtures.mock_context "standard")
           (Fixtures.mock_context "enterprise") "orders").
  - by vm_compute.
  - reflexivity.
Defined.

(** X8. No registered action asks for more than "professional": a caller
    whose plan has at least that rank passes [check_plan] for every action
    name, registered or not. *)
Theorem check_plan_professional_passes_all (c : Context) (action : string) :
  rank "professional" ≤ rank (plan c) →
  check_plan (Some c) action = Return tt.
Proof.
  intros Hle. destruct (ACTION_PLAN !! action) as [required|] eqn:E.
  - rewrite (check_plan_registered _ _ _ E).
    pose proof (ACTION_PLAN_rank_le_professional _ _ E).
    destruct (Z.ltb_spec (rank (plan c)) (rank required)); [lia | done].
  - by apply check_plan_unregistered.
Qed.

Lemma check_plan_professional_passes_all_witness :
  check_plan (Some (Fixtures.mock_context "enterprise")) "coin_heatmap" = Return tt.
Proof.
  apply check_plan_professional_passes_all. by vm_compute.
Defined.

(** [check_params] reads the bag at the required names only. *)
Lemma missing_params_agree (required : list string) (kwargs kwargs' : gmap string pyval) :
  (∀ p, p ∈ required → kwargs !! p = kwargs' !! p) →
  missing_params required kwargs = missing_params required kwargs'.
Proof.
  intros H. unfold missing_params. apply filter_ext_in.
  intros p Hp. unfold dict_get. rewrite (H p); [done|]. by apply list_elem_of_In.
Qed.

(** X9. [check_params] looks at nothing but the required names of the
    action: two bags that agree on them get the same verdict, with the same
    message, whatever else they hold. *)
Theorem check_params_only_required (action : string) (kwargs kwargs' : gmap string pyval) :
  (∀ p, p ∈ default [] (ACTION_PARAMS !! action) → kwargs !! p = kwargs' !! p) →
  check_params action kwargs = check_params action kwargs'.
Proof.
  intros H. unfold check_params. fold (required_params action) in H.
  by rewrite (missing_params_agree _ _ _ H).
Qed.

Lemma check_params_only_required_witness :
  check_params "aggregated" {[ "symbol" := PStr "BTC"; "limit" := PInt 0 ]}
  = check_params "aggregated" {[ "symbol" := PStr "BTC" ]}.
Proof.
  apply check_params_only_required.
  intros p Hp. change (p ∈ ["symbol"]) in Hp.
  apply list_elem_of_singleton in Hp as ->. reflexivity.
Defined.

(** [sorted] gives the elements of the set, each once, in ascending order. *)
Lemma sorted_spec (s : gset string) :
  Sorted str_le (sorted s) ∧ NoDup (sorted s) ∧ ∀ x, x ∈ sorted s ↔ x ∈ s.
Proof.
  unfold sorted. split; [|split].
  - apply Sorted_merge_sort. intros x y. apply String.leb_total.
  - rewrite merge_sort_Permutation. apply NoDup_elements.
  - intros x. rewrite merge_sort_Permutation. apply elem_of_elements.
Qed.

End GateMore.

(** ** The tools *)

Section ToolProperties.
Import Config Client Server Tools.

Variable upstream : nat → Request → result Response.
Variable py_str : pyval → string.

Lemma drop_none_lookup_eq (d : gmap string pyval) (k : string) :
  drop_none d !! k = match d !! k with
                     | Some PNone => None
                     | o => o
                     end.
Proof.
  destruct (d !! k) as [v|] eqn:E.
  - destruct v; try (by apply drop_none_lookup). by apply drop_none_null.
  - destruct (drop_none d !! k) as [v|] eqn:E'; [|done].
    apply drop_none_lookup in E' as [E' _]. congruence.
Qed.

(** X10. Called without a context, each tool raises the [ValueError]
    "Context is required - tool must be called via MCP" before anything else:
    no HTTP call is made, whatever the other arguments are. *)
Theorem tools_require_context :
  let no_context : exn := ValueError "Context is required - tool must be called via MCP" in
  (∀ symbol side limit w,
     coinglass_liq_orders upstream py_str symbol side limit None w = (Raise no_context, w))
  ∧ (∀ action symbol user page w,
       coinglass_whale_positions upstream py_str action symbol user page None w
       = (Raise no_context, w))
  ∧ (∀ exchange pair interval limit w,
       coinglass_price_history upstream py_str exchange pair interval limit None w
       = (Raise no_context, w))
  ∧ (∀ action symbol exchange pair interval limit w,
       coinglass_oi_history upstream py_str action symbol exchange pair interval limit None w
       = (Raise no_context, w))
  ∧ (∀ action symbol w,
       coinglass_market_data upstream py_str action symbol None w = (Raise no_context, w))
  ∧ (∀ action symbol exchange pair interval limit w,
       coinglass_spot upstream py_str action symbol exchange pair interval limit None w
       = (Raise no_context, w))
  ∧ (∀ list_of_set action, coinglass_config list_of_set action None = Raise no_context).
Proof. repeat split. Qed.

(** X11. [coinglass_liq_orders] is closed below "standard": a caller whose
    plan ranks lower gets the [ValueError] of [check_plan] and no HTTP call
    is made. *)
Theorem liq_orders_denied_without_call (symbol : option string) (side : option Side)
    (limit : Z) (c : Context) (w : World) :
  rank (plan c) < rank "standard" →
  coinglass_liq_orders upstream py_str symbol side limit (Some c) w
  = (Raise (ValueError
       ("Action 'orders' requires standard plan (current: " ++ plan c ++ "). "
        ++ "Upgrade at https://www.coinglass.com/pricing")), w).
Proof.
  intros Hlt. unfold coinglass_liq_orders, bind, call.
  rewrite (check_plan_registered c "orders" "standard") by reflexivity.
  destruct (Z.ltb_spec (rank (plan c)) (rank "standard")); [done | lia].
Qed.

(** X12. From "standard" on, [coinglass_liq_orders] is the request to
    "/api/futures/liquidation/order" with the symbol, side and limit: an
    exception of the request leaves the tool unchanged, and data comes back
    in the envelope of action "orders", with the symbol and the side as
    metadata. *)
Theorem liq_orders_granted (symbol : option string) (side : option Side)
    (limit : Z) (c : Context) (w : World) :
  rank "standard" ≤ rank (plan c) →
  coinglass_liq_orders upstream py_str symbol side limit (Some c) w
  = request_then_ok upstream py_str c "/api/futures/liquidation/order"
      (Some {[ "symbol" := opt_str symbol;
               "side" := opt_str (Side_str <$> side);
               "limit" := PInt limit ]})
      "orders"
      (λ _, {[ "symbol" := opt_str symbol; "side" := opt_str (Side_str <$> side) ]}) w.
Proof.
  intros Hle. unfold coinglass_liq_orders, request_then_ok, bind, call.
  rewrite (check_plan_registered c "orders" "standard") by reflexivity.
  destruct (Z.ltb_spec (rank (plan c)) (rank "standard")); [lia|].
  simpl. by destruct (request upstream py_str _ _ _ w) as [[data|e] w'].
Qed.

(** X13. [coinglass_whale_positions] reaches the network exactly for plans
    of rank 1 and more, for each of its three actions: below, it raises the
    [ValueError] of [check_plan] and makes no HTTP call; from "startup" on it
    is the request to the endpoint of the action. *)
Theorem whale_positions_gate (action : ActionWhale) (symbol user : option string)
    (page : Z) (c : Context) (w : World) :
  (rank (plan c) < rank "startup" →
     coinglass_whale_positions upstream py_str action symbol user page (Some c) w
     = (Raise (ValueError
          ("Action '" ++ ActionWhale_str action ++ "' requires startup plan (current: "
           ++ plan c ++ "). " ++ "Upgrade at https://www.coinglass.com/pricing")), w))
  ∧ (rank "startup" ≤ rank (plan c) →
       coinglass_whale_positions upstream py_str action symbol user page (Some c) w
       = request_then_ok upstream py_str c (whale_endpoints action)
           (Some {[ "symbol" := opt_str symbol; "user" := opt_str user; "page" := PInt page ]})
           (ActionWhale_str action)
           (λ _, {[ "symbol" := opt_str symbol; "page" := PInt page ]}) w).
Proof.
  assert (Hreq : ACTION_PLAN !! ActionWhale_str action = Some "startup")
    by (by destruct action).
  split; intros H; unfold coinglass_whale_positions, request_then_ok, bind, call;
    rewrite (check_plan_registered c _ _ Hreq);
    destruct (Z.ltb_spec (rank (plan c)) (rank "startup")); try lia; done.
Qed.

(** X14. [coinglass_price_history] checks the interval before it calls:
    an interval outside the caller's set gives the [ValueError] of
    [check_interval] and no HTTP call; otherwise the tool is the request to
    "/api/price/ohlc-history" (the pair is sent as "symbol"). When it returns
    an envelope, the metadata echo exchange, pair and interval, and hold
    "total", the length of the data, exactly when the data is a list. *)
Theorem price_history_gate_and_total (exchange pair interval : string) (limit : Z)
    (c : Context) (w : World) :
  (interval ∉ allowed_intervals (plan c) →
     ∃ msg : string,
       coinglass_price_history upstream py_str exchange pair interval limit (Some c) w
       = (Raise (ValueError msg), w))
  ∧ (interval ∈ allowed_intervals (plan c) →
       coinglass_price_history upstream py_str exchange pair interval limit (Some c) w
       = request_then_ok upstream py_str c "/api/price/ohlc-history"
           (Some {[ "exchange" := PStr exchange;
                    "symbol" := PStr pair;
                    "interval" := PStr interval;
                    "limit" := PInt limit ]})
           "price_history"
           (λ data, {[ "exchange" := PStr exchange;
                       "pair" := PStr pair;
                       "interval" := PStr interval;
                       "total" := total_of data ]}) w)
  ∧ (∀ (envelope : pyval) (w' : World),
       coinglass_price_history upstream py_str exchange pair interval limit (Some c) w
       = (Return envelope, w') →
       ∃ (data : pyval) (meta : gmap string pyval),
         envelope = PDict {[ "success" := PBool true;
                             "action" := PStr "price_history";
                             "data" := data;
                             "metadata" := PDict meta ]}
         ∧ meta !! "total" = match data with
                             | PList l => Some (PInt (Z.of_nat (length l)))
                             | _ => None
                             end
         ∧ meta !! "exchange" = Some (PStr exchange)
         ∧ meta !! "pair" = Some (PStr pair)
         ∧ meta !! "interval" = Some (PStr interval)).
Proof.
  assert (Hdeny : interval ∉ allowed_intervals (plan c) →
    ∃ msg : string,
      coinglass_price_history upstream py_str exchange pair interval limit (Some c) w
      = (Raise (ValueError msg), w)).
  { intros Hout. eexists. unfold coinglass_price_history, bind, call.
    by rewrite (check_interval_fails _ _ Hout). }
  assert (Hpass : interval ∈ allowed_intervals (plan c) →
    coinglass_price_history upstream py_str exchange pair interval limit (Some c) w
    = request_then_ok upstream py_str c "/api/price/ohlc-history"
        (Some {[ "exchange" := PStr exchange;
                 "symbol" := PStr pair;
                 "interval" := PStr interval;
                 "limit" := PInt limit ]})
        "price_history"
        (λ data, {[ "exchange" := PStr exchange;
                    "pair" := PStr pair;
                    "interval" := PStr interval;
                    "total" := total_of data ]}) w).
  { intros Hin. apply check_interval_spec in Hin.
    unfold coinglass_price_history, request_then_ok, bind, call. by rewrite Hin. }
  split; [exact Hdeny|]. split; [exact Hpass|].
  intros envelope w' Hrun.
  destruct (decide (interval ∈ allowed_intervals (plan c))) as [Hin | Hout].
  - rewrite (Hpass Hin) in Hrun. unfold request_then_ok in Hrun.
    destruct (request upstream py_str _ _ _ w) as [[data|e] w1]; [|discriminate].
    injection Hrun as <- <-. eexists data, _. split; [reflexivity|].
    rewrite !drop_none_lookup_eq. repeat split. by destruct data.
  - destruct (Hdeny Hout) as [msg Hmsg]. congruence.
Qed.

Lemma oi_history_params_pair (symbol exchange pair : option string) :
  check_params "pair"
    {[ "symbol" := opt_str symbol; "exchange" := opt_str exchange; "pair" := opt_str pair ]}
  = Return tt →
  ∃ ex p : string, exchange = Some ex ∧ ex ≠ "" ∧ pair = Some p ∧ p ≠ "".
Proof.
  destruct exchange as [[|a ex]|], pair as [[|b p]|]; vm_compute; intros H;
    try discriminate.
  by exists (String a ex), (String b p).
Qed.

Lemma oi_history_params_symbol (action : ActionOIHistory)
    (symbol exchange pair : option string) :
  action ≠ OI_pair →
  check_params (ActionOIHistory_str action)
    {[ "symbol" := opt_str symbol; "exchange" := opt_str exchange; "pair" := opt_str pair ]}
  = Return tt →
  ∃ s : string, symbol = Some s ∧ s ≠ "".
Proof.
  intros Hne. destruct action; [done| | |];
    (destruct symbol as [[|a s]|]; vm_compute; intros H; try discriminate;
     by exists (String a s)).
Qed.

(** X15. [coinglass_oi_history] sends nothing incomplete. If it makes any
    HTTP call, the interval is one the caller's plan allows and the required
    parameters of the action are there and not empty: exchange and pair for
    "pair", sent as "exchange" and "symbol"; the symbol for the three
    aggregated actions. Each of the one to three calls goes to the endpoint
    of the action with exactly these parameters, the interval and the
    limit. *)
Theorem oi_history_sends_complete_requests (action : ActionOIHistory)
    (symbol exchange pair : option string) (interval : string) (limit : Z)
    (c : Context) (w : World) :
  let out := coinglass_oi_history upstream py_str action symbol exchange pair
               interval limit (Some c) w in
  calls out.2 ≠ calls w →
  interval ∈ allowed_intervals (plan c)
  ∧ ∃ (n : nat) (sent : gmap string pyval),
      (1 ≤ n ≤ 3)%nat
      ∧ calls out.2
        = (calls w ++ replicate n
             {| url := base_url (client c) ++ oi_history_endpoints action;
                params := Some sent;
                headers := {[ "CG-API-KEY" := api_key (client c) ]};
                timeout := 30 |})%list
      ∧ match action with
        | OI_pair =>
            ∃ ex p : string,
              exchange = Some ex ∧ ex ≠ "" ∧ pair = Some p ∧ p ≠ ""
              ∧ sent = {[ "exchange" := PStr ex; "symbol" := PStr p;
                          "interval" := PStr interval; "limit" := PInt limit ]}
        | _ =>
            ∃ s : string,
              symbol = Some s ∧ s ≠ ""
              ∧ sent = {[ "symbol" := PStr s;
                          "interval" := PStr interval; "limit" := PInt limit ]}
        end.
Proof.
  intros out Hcalls. subst out.
  unfold coinglass_oi_history, bind, call in *.
  destruct (check_interval (Some c) interval) as [[]|e] eqn:Hint; [|done].
  apply check_interval_spec in Hint. split; [exact Hint|].
  destruct (check_params (ActionOIHistory_str action) _) as [[]|e] eqn:Hpar; [|done].
  cbn [get_client] in *.
  assert (action = OI_pair ∨ action ≠ OI_pair) as [-> | Hne]
    by (destruct action; auto; right; discriminate).
  - apply oi_history_params_pair in Hpar as (ex & p & -> & Hex & -> & Hp).
    destruct (request_calls upstream py_str (client c) (oi_history_endpoints OI_pair)
                (Some {[ "exchange" := PStr ex; "symbol" := PStr p;
                         "interval" := PStr interval; "limit" := PInt limit ]}) w)
      as (n & Hn & Hc).
    exists n, {[ "exchange" := PStr ex; "symbol" := PStr p;
                 "interval" := PStr interval; "limit" := PInt limit ]}.
    split; [exact Hn|]. split.
    + simpl. destruct (request upstream py_str _ _ _ w) as [[data|e] w1]; exact Hc.
    + by exists ex, p.
  - apply (oi_history_params_symbol _ _ _ _ Hne) in Hpar as (s & -> & Hs).
    destruct (request_calls upstream py_str (client c) (oi_history_endpoints action)
                (Some {[ "symbol" := PStr s;
                         "interval" := PStr interval; "limit" := PInt limit ]}) w)
      as (n & Hn & Hc).
    exists n, {[ "symbol" := PStr s;
                 "interval" := PStr interval; "limit" := PInt limit ]}.
    split; [exact Hn|]. split.
    + destruct action; [done| | |]; simpl;
        destruct (request upstream py_str _ _ _ w) as [[data|e] w1]; exact Hc.
    + destruct action; [done| | |]; by exists s.
Qed.

(** X16. [coinglass_market_data] and its symbol. An absent or empty symbol
    makes "coins_summary" raise its [ValueError] without any HTTP call, and
    makes the two other actions request their endpoint without parameters
    ([params] is [None]); a symbol that is not empty is the only parameter
    sent, for every action. *)
Theorem market_data_symbol_rule (action : ActionMarketData) (symbol : option string)
    (c : Context) (w : World) :
  (action = MD_coins_summary → symbol = None ∨ symbol = Some "" →
     coinglass_market_data upstream py_str action symbol (Some c) w
     = (Raise (ValueError
          "Action 'coins_summary' requires symbol parameter (e.g., symbol='BTC')"), w))
  ∧ (action ≠ MD_coins_summary → symbol = None ∨ symbol = Some "" →
       coinglass_market_data upstream py_str action symbol (Some c) w
       = request_then_ok upstream py_str c (market_data_endpoints action) None
           (ActionMarketData_str action)
           (λ data, {[ "symbol" := opt_str symbol; "total" := total_of data ]}) w)
  ∧ (∀ s : string, symbol = Some s → s ≠ "" →
       coinglass_market_data upstream py_str action symbol (Some c) w
       = request_then_ok upstream py_str c (market_data_endpoints action)
           (Some {[ "symbol" := PStr s ]})
           (ActionMarketData_str action)
           (λ data, {[ "symbol" := PStr s; "total" := total_of data ]}) w).
Proof.
  split; [|split].
  - intros -> [-> | ->]; reflexivity.
  - intros Hne [-> | ->]; destruct action; done.
  - intros s -> Hs. destruct s as [|a s]; [done|]. by destruct action.
Qed.

(** X17. In [coinglass_spot] the interval gate is optional. For
    "price_history" an interval that is not empty is checked against the
    caller's plan before any HTTP call; but with no interval, or an empty
    one, no check is made and the request goes out under any plan string.
    The four other actions never check and send no parameters at all. *)
Theorem spot_interval_gate (action : ActionSpot)
    (symbol exchange pair interval : option string) (limit : Z)
    (c : Context) (w : World) :
  let meta : pyval → gmap string pyval :=
    λ _, {[ "symbol" := opt_str symbol; "exchange" := opt_str exchange ]} in
  let history_params : gmap string pyval :=
    {[ "exchange" := opt_str exchange;
       "symbol" := opt_str pair;
       "interval" := opt_str interval;
       "limit" := PInt limit ]} in
  (action ≠ Spot_price_history →
     coinglass_spot upstream py_str action symbol exchange pair interval limit (Some c) w
     = request_then_ok upstream py_str c (spot_endpoints action) (Some ∅)
         (ActionSpot_str action) meta w
     ∧ params (build_request (client c) (spot_endpoints action) (Some ∅)) = None)
  ∧ (action = Spot_price_history → interval = None ∨ interval = Some "" →
       coinglass_spot upstream py_str action symbol exchange pair interval limit (Some c) w
       = request_then_ok upstream py_str c "/api/price/ohlc-history" (Some history_params)
           "price_history" meta w)
  ∧ (action = Spot_price_history →
       ∀ i : string, interval = Some i → i ≠ "" →
         (i ∉ allowed_intervals (plan c) →
            ∃ msg : string,
              coinglass_spot upstream py_str action symbol exchange pair interval limit
                (Some c) w
              = (Raise (ValueError msg), w))
         ∧ (i ∈ allowed_intervals (plan c) →
              coinglass_spot upstream py_str action symbol exchange pair interval limit
                (Some c) w
              = request_then_ok upstream py_str c "/api/price/ohlc-history"
                  (Some history_params) "price_history" meta w)).
Proof.
  intros meta history_params. split; [|split].
  - intros Hne. split; [by destruct action|reflexivity].
  - intros -> [-> | ->]; reflexivity.
  - intros -> i -> Hi. destruct i as [|a i]; [done|]. split.
    + intros Hout. eexists. unfold coinglass_spot, bind, call. simpl.
      by rewrite (check_interval_fails _ _ Hout).
    + intros Hin. apply check_interval_spec in Hin.
      unfold coinglass_spot, request_then_ok, bind, call. simpl. by rewrite Hin.
Qed.

End ToolProperties.

Section ToolWitnesses.
Import Config Client Server Tools.

Lemma liq_orders_denied_without_call_witness :
  coinglass_liq_orders (Fixtures.always (Fixtures.mock_response (PList []) "0" "success"))
    Fixtures.str None None 50 (Some (Fixtures.mock_context "hobbyist")) fresh
  = (Raise (ValueError
       "Action 'orders' requires standard plan (current: hobbyist). Upgrade at https://www.coinglass.com/pricing"),
     fresh).
Proof.
  apply (liq_orders_denied_without_call
           (Fixtures.always (Fixtures.mock_response (PList []) "0" "success"))
           Fixtures.str None None 50 (Fixtures.mock_context "hobbyist") fresh).
  by vm_compute.
Defined.

Lemma liq_orders_granted_witness :
  (coinglass_liq_orders (Fixtures.always (Fixtures.mock_response (PList []) "0" "success"))
     Fixtures.str (Some "BTC") None 50 (Some (Fixtures.mock_context "standard")) fresh).1
  = Return (ok "orders" (PList []) {[ "symbol" := PStr "BTC" ]}).
Proof.
  rewrite (liq_orders_granted
             (Fixtures.always (Fixtures.mock_response (PList []) "0" "success"))
             Fixtures.str (Some "BTC") None 50 (Fixtures.mock_context "standard") fresh).
  - reflexivity.
  - by vm_compute.
Defined.

Lemma oi_history_sends_complete_requests_witness :
  "h4" ∈ allowed_intervals "hobbyist"
  ∧ ∃ (n : nat) (sent : gmap string pyval),
      (1 ≤ n ≤ 3)%nat
      ∧ calls (coinglass_oi_history
                 (Fixtures.always (Fixtures.mock_response (PList []) "0" "success"))
                 Fixtures.str OI_aggregated (Some "BTC") None None "h4" 500
                 (Some (Fixtures.mock_context "hobbyist")) fresh).2
        = replicate n
            {| url := Config.BASE_URL ++ "/api/futures/openInterest/ohlc-aggregated-history";
               params := Some sent;
               headers := {[ "CG-API-KEY" := "test-api-key" ]};
               timeout := 30 |}
      ∧ sent = {[ "symbol" := PStr "BTC"; "interval" := PStr "h4"; "limit" := PInt 500 ]}.
Proof.
  destruct (oi_history_sends_complete_requests
              (Fixtures.always (Fixtures.mock_response (PList []) "0" "success"))
              Fixtures.str OI_aggregated (Some "BTC") None None "h4" 500
              (Fixtures.mock_context "hobbyist") fresh)
    as (Hin & n & sent & Hn & Hc & s & Hs & _ & Hsent).
  - vm_compute. discriminate.
  - split; [exact Hin|]. exists n, sent. split; [exact Hn|]. split; [exact Hc|].
    injection Hs as <-. exact Hsent.
Defined.

End ToolWitnesses.

(** ** The meta tools *)

Section ConfigProperties.
Import Config Server Tools.

Variable list_of_set : gset string → list string.

(** X18. The "intervals" action of [coinglass_config] tells the caller what
    the gate will do: "your_plan" lists, in ascending order and without
    repetition, exactly the intervals [check_interval] accepts for the
    caller's plan, and every one of them is also listed under "all". *)
Theorem config_intervals_agree_with_gate (c : Context) :
  ∃ all_intervals your_plan : list string,
    coinglass_config list_of_set Config_intervals (Some c)
    = Return (ok "intervals"
                (PDict {[ "all" := py_strs all_intervals;
                          "your_plan" := py_strs your_plan;
                          "plan" := PStr (plan c) ]})
                {[ "plan" := PStr (plan c) ]})
    ∧ Sorted str_le your_plan
    ∧ NoDup your_plan
    ∧ (∀ interval : string,
         interval ∈ your_plan ↔ check_interval (Some c) interval = Return tt)
    ∧ (∀ interval : string, interval ∈ your_plan → interval ∈ all_intervals).
Proof.
  exists (sorted (allowed_intervals "enterprise")), (sorted (allowed_intervals (plan c))).
  destruct (sorted_spec (allowed_intervals (plan c))) as (Hs & Hnd & Hin).
  split; [reflexivity|]. split; [exact Hs|]. split; [exact Hnd|]. split.
  - intros interval. by rewrite Hin, check_interval_spec.
  - intros interval Hi. apply sorted_spec. apply Hin in Hi.
    by apply (allowed_intervals_enterprise (plan c)).
Qed.

End ConfigProperties.

Section SearchProperties.
Import Server Tools.

(** The order [matches.sort] leaves: relevance does not increase. *)
Abbreviation by_relevance := (λ a b : Match, (relevance b ≤ relevance a)%nat).

Lemma append_cons (a : Ascii.ascii) (s t : string) : String a s ++ t = String a (s ++ t).
Proof. reflexivity. Qed.

Lemma append_nil (t : string) : "" ++ t = t.
Proof. reflexivity. Qed.

Lemma prefix_spec (sub s : string) :
  String.prefix sub s = true ↔ ∃ post, s = sub ++ post.
Proof.
  revert sub. induction s as [|b s IH]; intros [|a sub]; cbn [String.prefix].
  - split; [by exists ""|done].
  - split; [done|]. intros [post H]. rewrite append_cons in H. discriminate.
  - split; [intros _; by eexists|done].
  - destruct (Ascii.ascii_dec a b) as [->|Hne].
    + rewrite IH. split; intros [post H]; exists post.
      * by rewrite append_cons, H.
      * rewrite append_cons in H. congruence.
    + split; [done|]. intros [post H]. rewrite append_cons in H. congruence.
Qed.

(** [str_in] is the substring test. *)
Lemma str_in_spec (sub s : string) :
  str_in sub s = true ↔ ∃ pre post, s = pre ++ sub ++ post.
Proof.
  induction s as [|b s IH].
  - cbn [str_in]. rewrite orb_false_r, prefix_spec. split.
    + intros [post H]. by exists "", post.
    + intros ([|c pre] & post & H); [by exists post|].
      rewrite append_cons in H. discriminate.
  - cbn [str_in]. rewrite orb_true_iff, prefix_spec, IH. split.
    + intros [[post H] | (pre & post & H)].
      * by exists "", post.
      * exists (String b pre), post. by rewrite append_cons, H.
    + intros ([|c pre] & post & H).
      * left. by exists post.
      * right. exists pre, post. rewrite append_cons in H. congruence.
Qed.

Lemma append_length (s t : string) :
  String.length (s ++ t) = (String.length s + String.length t)%nat.
Proof.
  induction s as [|a s IH]; [done|]. rewrite append_cons. simpl. by rewrite IH.
Qed.

Lemma str_in_length (sub s : string) :
  str_in sub s = true → (String.length sub ≤ String.length s)%nat.
Proof.
  intros (pre & post & ->)%str_in_spec.
  rewrite !append_length. lia.
Qed.

Lemma insert_by_relevance_perm (m : Match) (l : list Match) :
  insert_by_relevance m l ≡ₚ m :: l.
Proof.
  induction l as [|m' l IH]; simpl; [done|].
  destruct (relevance m <? relevance m')%nat; [|done].
  rewrite IH. apply Permutation_swap.
Qed.

Lemma sort_by_relevance_perm (l : list Match) : sort_by_relevance l ≡ₚ l.
Proof.
  induction l as [|m l IH]; simpl; [done|].
  by rewrite insert_by_relevance_perm, IH.
Qed.

Lemma insert_by_relevance_HdRel (a m : Match) (l : list Match) :
  by_relevance a m → HdRel by_relevance a l →
  HdRel by_relevance a (insert_by_relevance m l).
Proof.
  intros Ham Hal. destruct l as [|m' l]; simpl; [by constructor|].
  destruct (relevance m <? relevance m')%nat; constructor; [|done].
  by inversion Hal.
Qed.

Lemma insert_by_relevance_sorted (m : Match) (l : list Match) :
  Sorted by_relevance l → Sorted by_relevance (insert_by_relevance m l).
Proof.
  induction 1 as [|m' l Hl IH Hhd]; simpl; [by repeat constructor|].
  destruct (Nat.ltb_spec (relevance m) (relevance m')).
  - constructor; [exact IH|]. apply insert_by_relevance_HdRel; [lia | exact Hhd].
  - constructor; [by constructor|]. by constructor.
Qed.

Lemma sort_by_relevance_sorted (l : list Match) : Sorted by_relevance (sort_by_relevance l).
Proof.
  induction l as [|m l IH]; simpl; [constructor|].
  by apply insert_by_relevance_sorted.
Qed.

Lemma sort_by_relevance_strongly (l : list Match) :
  StronglySorted by_relevance (sort_by_relevance l).
Proof.
  apply Sorted_StronglySorted; [|apply sort_by_relevance_sorted].
  intros a b c Hab Hbc. simpl in *. lia.
Qed.

Lemma insert_by_relevance_filter (r : nat) (m : Match) (l : list Match) :
  List.filter (λ x, Nat.eqb (relevance x) r) (insert_by_relevance m l)
  = List.filter (λ x, Nat.eqb (relevance x) r) (m :: l).
Proof.
  induction l as [|m' l IH]; [done|]. cbn [insert_by_relevance].
  destruct (Nat.ltb_spec (relevance m) (relevance m')); [|done].
  cbn [List.filter] in *. rewrite IH.
  destruct (Nat.eqb_spec (relevance m) r), (Nat.eqb_spec (relevance m') r); try done; lia.
Qed.

Lemma collect_matches_elem (query_lower : string) (infos : list ToolInfo) (m : Match) :
  m ∈ collect_matches query_lower infos ↔
  ∃ info, info ∈ infos ∧ (0 < score query_lower info)%nat
          ∧ m = {| match_tool := tool info; match_actions := actions info;
                   relevance := score query_lower info |}.
Proof.
  induction infos as [|info infos IH]; simpl.
  - split; [by intros ?%elem_of_nil | by intros (? & ?%elem_of_nil & _)].
  - destruct (Nat.ltb_spec 0 (score query_lower info)).
    + rewrite elem_of_cons, IH. split.
      * intros [-> | (i & Hi & Hs & ->)].
        -- exists info. split; [apply list_elem_of_here|done].
        -- exists i. split; [by apply list_elem_of_further|done].
      * intros (i & [-> | Hi]%elem_of_cons & Hs & ->); [by left|].
        right. by exists i.
    + rewrite IH. split.
      * intros (i & Hi & Hs & ->). exists i. split; [by apply list_elem_of_further|done].
      * intros (i & [-> | Hi]%elem_of_cons & Hs & ->); [lia|]. by exists i.
Qed.

Lemma collect_matches_length (query_lower : string) (infos : list ToolInfo) :
  length (collect_matches query_lower infos)
  = length (List.filter (λ info, (0 <? score query_lower info)%nat) infos).
Proof.
  induction infos as [|info infos IH]; simpl; [done|].
  destruct (0 <? score query_lower info)%nat; simpl; by rewrite IH.
Qed.

End SearchProperties.

Section SearchTool.
Import Server Tools.

Variable lower : string → string.

Lemma search_matches_elem (query : string) (m : Match) :
  m ∈ search_matches lower query ↔
  ∃ info, info ∈ tools_info ∧ (0 < score (lower query) info)%nat
          ∧ m = {| match_tool := tool info; match_actions := actions info;
                   relevance := score (lower query) info |}.
Proof.
  unfold search_matches. rewrite sort_by_relevance_perm. apply collect_matches_elem.
Qed.

(** X19. [coinglass_search] returns the best five. The matches it returns
    are the first five (or all, when there are fewer) of the matching tools
    in order of relevance: relevance does not increase along the list, no
    tool left out is more relevant than a tool returned, and every returned
    match is a tool of the table with its actions and its score, which is at
    least 1. "total_matches" counts the matches before the cut. *)
Theorem search_returns_best_five (query : string) (ctx : option Context) :
  ∃ top rest : list Match,
    search_matches lower query = (top ++ rest)%list
    ∧ coinglass_search lower query ctx
      = ok "search"
          (PDict {[ "query" := PStr query; "matches" := PList (Match_dict <$> top) ]})
          {[ "total_matches" := PInt (Z.of_nat (length top + length rest)) ]}
    ∧ length top = (5 `min` (length top + length rest))%nat
    ∧ StronglySorted (λ a b : Match, (relevance b ≤ relevance a)%nat) top
    ∧ (∀ m m' : Match, m ∈ top → m' ∈ rest → (relevance m' ≤ relevance m)%nat)
    ∧ (∀ m : Match, m ∈ top →
         (1 ≤ relevance m)%nat
         ∧ ∃ info, info ∈ tools_info
                   ∧ match_tool m = tool info
                   ∧ match_actions m = actions info
                   ∧ relevance m = score (lower query) info).
Proof.
  set (l := search_matches lower query).
  assert (Hl : l = (take 5 l ++ drop 5 l)%list) by (by rewrite take_drop).
  assert (Hlen : (length (take 5 l) + length (drop 5 l))%nat = length l).
  { rewrite <- length_app. by rewrite take_drop. }
  assert (Hss : StronglySorted (λ a b : Match, (relevance b ≤ relevance a)%nat)
                  (take 5 l ++ drop 5 l)).
  { rewrite take_drop. apply sort_by_relevance_strongly. }
  apply StronglySorted_app in Hss as (Hcross & Htop & _).
  exists (take 5 l), (drop 5 l). split; [exact Hl|]. split.
  { unfold coinglass_search. fold l. by rewrite Hlen. }
  split; [by rewrite Hlen, length_take|]. split; [exact Htop|]. split.
  { intros m m' Hm Hm'. by apply (Hcross m m'). }
  intros m Hm. assert (Hin : m ∈ l).
  { rewrite Hl. apply elem_of_app. by left. }
  apply search_matches_elem in Hin as (info & Hinfo & Hs & ->). simpl.
  split; [lia|]. by exists info.
Qed.

(** X20. The search leaves no matching tool out and invents none: a tool of
    the table is among the matches, with its actions and its score, exactly
    when at least one of its keywords occurs in the lowercased query, and
    the number of matches is the number of such tools, 22 at most. *)
Theorem search_matches_every_hit (query : string) :
  (∀ info, info ∈ tools_info →
     (∃ kw, kw ∈ keywords info ∧ str_in kw (lower query) = true) ↔
     {| match_tool := tool info; match_actions := actions info;
        relevance := score (lower query) info |} ∈ search_matches lower query)
  ∧ length (search_matches lower query)
    = length (List.filter (λ info, (0 <? score (lower query) info)%nat) tools_info)
  ∧ (length (search_matches lower query) ≤ 22)%nat.
Proof.
  assert (Hscore : ∀ info,
    (∃ kw, kw ∈ keywords info ∧ str_in kw (lower query) = true)
    ↔ (0 < score (lower query) info)%nat).
  { intros info. unfold score. split.
    - intros (kw & Hkw & Hin).
      assert (H : kw ∈ List.filter (λ kw, str_in kw (lower query)) (keywords info)).
      { apply list_elem_of_In, filter_In. split; [by apply list_elem_of_In|done]. }
      destruct (List.filter _ (keywords info)); [by apply elem_of_nil in H|simpl; lia].
    - intros Hpos.
      destruct (List.filter (λ kw, str_in kw (lower query)) (keywords info))
        as [|kw l] eqn:E; [simpl in Hpos; lia|].
      assert (H : In kw (List.filter (λ kw, str_in kw (lower query)) (keywords info)))
        by (rewrite E; by left).
      apply filter_In in H as [H1 H2]. exists kw. split; [by apply list_elem_of_In|done]. }
  assert (Hlen : length (search_matches lower query)
    = length (List.filter (λ info, (0 <? score (lower query) info)%nat) tools_info)).
  { unfold search_matches. rewrite sort_by_relevance_perm. apply collect_matches_length. }
  split; [|split; [exact Hlen|]].
  - intros info Hinfo. rewrite Hscore, search_matches_elem. split.
    + intros Hpos. by exists info.
    + intros (info' & _ & Hpos & [= _ _ Hrel]). lia.
  - rewrite Hlen.
    pose proof (filter_length_le (λ info, (0 <? score (lower query) info)%nat) tools_info)
      as Hle.
    by change (length tools_info) with 22%nat in Hle.
Qed.

(** X21. The sort is stable: among the matches of one relevance, the order
    is the order in which the loop found them, which is the order of the
    tools in [tools_info]. *)
Theorem search_keeps_table_order_on_ties (query : string) (r : nat) :
  List.filter (λ m, Nat.eqb (relevance m) r) (search_matches lower query)
  = List.filter (λ m, Nat.eqb (relevance m) r) (collect_matches (lower query) tools_info).
Proof.
  unfold search_matches. induction (collect_matches (lower query) tools_info) as [|m l IH].
  - reflexivity.
  - cbn [sort_by_relevance]. rewrite insert_by_relevance_filter.
    cbn [List.filter]. by rewrite IH.
Qed.

Lemma keywords_two_chars (info : ToolInfo) (kw : string) :
  info ∈ tools_info → kw ∈ keywords info → (2 ≤ String.length kw)%nat.
Proof.
  revert info kw.
  assert (H : Forall (λ info, Forall (λ kw, (2 ≤ String.length kw)%nat) (keywords info))
                tools_info).
  { apply (bool_decide_unpack _). by vm_compute. }
  intros info kw Hinfo Hkw. rewrite Forall_forall in H.
  specialize (H info Hinfo). rewrite Forall_forall in H. by apply H.
Qed.

(** X22. A query that is empty, or of one character, once lowercased,
    matches nothing, since every keyword has two characters or more: the
    envelope holds an empty list of matches and "total_matches" 0. *)
Theorem search_short_query_matches_nothing (query : string) (ctx : option Context) :
  (String.length (lower query) < 2)%nat →
  coinglass_search lower query ctx
  = ok "search" (PDict {[ "query" := PStr query; "matches" := PList [] ]})
      {[ "total_matches" := PInt 0 ]}.
Proof.
  intros Hshort.
  assert (Hnil : search_matches lower query = []).
  { destruct (search_matches lower query) as [|m l] eqn:E; [done|]. exfalso.
    assert (Hm : m ∈ search_matches lower query) by (rewrite E; apply list_elem_of_here).
    apply search_matches_elem in Hm as (info & Hinfo & Hpos & _).
    unfold score in Hpos.
    destruct (List.filter (λ kw, str_in kw (lower query)) (keywords info))
      as [|kw l'] eqn:E'; [simpl in Hpos; lia|].
    assert (H : In kw (List.filter (λ kw, str_in kw (lower query)) (keywords info)))
      by (rewrite E'; by left).
    apply filter_In in H as [H1 H2]. apply str_in_length in H2.
    pose proof (keywords_two_chars info kw Hinfo) as H3.
    rewrite list_elem_of_In in H3. specialize (H3 H1). lia. }
  unfold coinglass_search. by rewrite Hnil.
Qed.

End SearchTool.

Section SearchWitnesses.
Import Server Tools.

Lemma search_short_query_matches_nothing_witness :
  coinglass_search Fixtures.lower "" None
  = ok "search" (PDict {[ "query" := PStr ""; "matches" := PList [] ]})
      {[ "total_matches" := PInt 0 ]}.
Proof.
  apply (search_short_query_matches_nothing Fixtures.lower "" None). simpl. lia.
Defined.

End SearchWitnesses.
